(** * Interaction-timing metrics recorder ([VoiceAgentMetrics], main.py)

    A shallow embedding of the metrics recorder of the telephone voice
    agent and of the Python operations it relies on, followed by the
    properties of the recorder.

    - Python values are the four kinds the recorder ever stores in a
      record: [None], [int], [float] and [str].  Floats are IEEE-754
      binary64 numbers (Rocq's primitive floats), integers are unbounded.
    - An interaction record and the session summary are Python dicts with
      string keys: finite maps [gmap string value].
    - The recorder mutates its records in place and may raise in the middle
      of a pass, so every method is a computation in a state-and-exception
      monad over a [world]: the recorder object, the logging output and the
      files written so far.  An exception keeps the state reached when it
      was raised.
    - Each dict handed to [log_interaction] is owned by the recorder from
      then on (every call site builds a fresh dict literal), so the
      interaction sequence is a list of dict values updated by index. *)

From Stdlib Require Import ZArith Ascii String.
From Stdlib Require Import Floats.PrimFloat Floats.SpecFloat Floats.FloatOps.
From stdpp Require Import gmap strings list pretty.

Local Open Scope string_scope.

(** ** Python values and exceptions *)

Inductive value :=
  | VNone
  | VInt (n : Z)
  | VFloat (x : float)
  | VStr (s : string).

Inductive exn :=
  | KeyError (key : string)
  | IndexError
  | TypeError
  | ValueError
  | OverflowError
  | ZeroDivisionError.

Inductive result (A : Type) :=
  | Ok (a : A)
  | Raise (e : exn).
Arguments Ok {A} a.
Arguments Raise {A} e.

Abbreviation dict := (gmap string value).

(** ** Arithmetic of the Python runtime *)

Module Py.

(** The binary64 number nearest to the rational [a / b], ties to even;
    an infinity when the quotient is beyond the largest finite float. *)
Definition float_of_ratio (a : Z) (b : positive) : float :=
  match a with
  | Z0 => zero
  | Zpos p => SF2Prim (SFdiv prec emax (S754_finite false p 0) (S754_finite false b 0))
  | Zneg p => SF2Prim (SFdiv prec emax (S754_finite true p 0) (S754_finite false b 0))
  end.

(** The least magnitude that rounds to [2^1024]: half an ulp above the
    largest finite float. *)
Definition overflow_bound : Z := (2 ^ 1024 - 2 ^ 970)%Z.

(** [sys.maxsize]: no list is longer. *)
Definition maxsize : Z := (2 ^ 63 - 1)%Z.

Definition to_float (n : Z) : float := float_of_ratio n 1.

(** [float(n)] for an int [n]: correctly rounded, [OverflowError] when
    [n] is too large. *)
Definition float_of_int (n : Z) : result float :=
  if (overflow_bound <=? Z.abs n)%Z then Raise OverflowError else Ok (to_float n).

(** The integer nearest to [m * 2^e * 1000], ties to even. *)
Definition scaled_half_even (m : positive) (e : Z) : Z :=
  match e with
  | Zneg k =>
      let num := (Zpos m * 1000)%Z in
      let den := Z.pow 2 (Zpos k) in
      let q := (num / den)%Z in
      let r := (num mod den)%Z in
      match (2 * r ?= den)%Z with
      | Lt => q
      | Gt => (q + 1)%Z
      | Eq => if Z.even q then q else (q + 1)%Z
      end
  | _ => (Zpos m * 1000 * Z.pow 2 e)%Z
  end.

(** [round(x, 3)] on a float: the float nearest to the decimal number
    obtained by rounding the exact value of [x] to three places, ties to
    even; zeros, infinities and NaN round to themselves and the sign of
    [x] is kept. *)
Definition round3 (x : float) : float :=
  match Prim2SF x with
  | S754_finite s m e =>
      let n := scaled_half_even m e in
      if (n =? 0)%Z then (if s then neg_zero else zero)
      else float_of_ratio (if s then (- n)%Z else n) 1000
  | _ => x
  end.

(** [a - b] *)
Definition sub (a b : value) : result value :=
  match a, b with
  | VInt x, VInt y => Ok (VInt (x - y))
  | VFloat x, VFloat y => Ok (VFloat (x - y))
  | VInt x, VFloat y =>
      match float_of_int x with
      | Ok fx => Ok (VFloat (fx - y))
      | Raise e => Raise e
      end
  | VFloat x, VInt y =>
      match float_of_int y with
      | Ok fy => Ok (VFloat (x - fy))
      | Raise e => Raise e
      end
  | _, _ => Raise TypeError
  end.

(** [a + b] *)
Definition add (a b : value) : result value :=
  match a, b with
  | VInt x, VInt y => Ok (VInt (x + y))
  | VFloat x, VFloat y => Ok (VFloat (x + y))
  | VInt x, VFloat y =>
      match float_of_int x with
      | Ok fx => Ok (VFloat (fx + y))
      | Raise e => Raise e
      end
  | VFloat x, VInt y =>
      match float_of_int y with
      | Ok fy => Ok (VFloat (x + fy))
      | Raise e => Raise e
      end
  | VStr x, VStr y => Ok (VStr (x ++ y))
  | _, _ => Raise TypeError
  end.

(** [a / b] (true division) *)
Definition truediv (a b : value) : result value :=
  match a, b with
  | VInt x, VInt y =>
      match y with
      | Z0 => Raise ZeroDivisionError
      | Zpos q =>
          if (overflow_bound * Zpos q <=? Z.abs x)%Z then Raise OverflowError
          else Ok (VFloat (float_of_ratio x q))
      | Zneg q =>
          if (overflow_bound * Zpos q <=? Z.abs x)%Z then Raise OverflowError
          else Ok (VFloat (float_of_ratio (- x) q))
      end
  | VFloat x, VFloat y =>
      if is_zero y then Raise ZeroDivisionError else Ok (VFloat (x / y))
  | VInt x, VFloat y =>
      match float_of_int x with
      | Ok fx => if is_zero y then Raise ZeroDivisionError else Ok (VFloat (fx / y))
      | Raise e => Raise e
      end
  | VFloat x, VInt y =>
      match float_of_int y with
      | Ok fy => if (y =? 0)%Z then Raise ZeroDivisionError else Ok (VFloat (x / fy))
      | Raise e => Raise e
      end
  | _, _ => Raise TypeError
  end.

(** [round(v, 3)]: an int rounds to itself, [None] and strings have no
    [__round__]. *)
Definition round_3 (v : value) : result value :=
  match v with
  | VInt n => Ok (VInt n)
  | VFloat x => Ok (VFloat (round3 x))
  | _ => Raise TypeError
  end.

(** Truth value of an attribute that holds [None] or a float. *)
Definition truthy (o : option float) : bool :=
  match o with
  | None => false
  | Some x => negb (is_zero x)
  end.

(** An attribute that holds [None] or a float, as a value. *)
Definition of_attr (o : option float) : value :=
  match o with
  | None => VNone
  | Some x => VFloat x
  end.

(** [posixpath.join(a, b)] *)
Definition path_join (a b : string) : string :=
  if String.prefix "/" b then b
  else if bool_decide (a = "") || bool_decide (String.get (String.length a - 1) a = Some "/"%char)
       then a ++ b
       else a ++ "/" ++ b.

End Py.

(** Exceptions propagate through [x ← r; k]. *)
Global Instance result_ret : MRet result := λ A a, Ok a.
Global Instance result_bind : MBind result :=
  λ A B k r, match r with Ok a => k a | Raise e => Raise e end.

(** [d[k]] *)
Definition getitem (d : dict) (k : string) : result value :=
  match d !! k with
  | Some v => Ok v
  | None => Raise (KeyError k)
  end.

(** ** The recorder and its environment *)

(** The attributes of a [VoiceAgentMetrics] object.  [logs_dir] is assigned
    once, in [__init__], and never again: it is the constant below. *)
Record VoiceAgentMetrics := {
  session_start_time : option float;
  session_end_time : option float;
  interactions : list dict;
  session_id : string;
}.

Definition logs_dir : string := "logs".

(** A call of the [logging] module: level, message template and the values
    interpolated into it. *)
Inductive level := INFO | WARNING.

Record log_record := {
  levelname : level;
  msg : string;
  args : list value;
}.

(** What a written file holds: the rows handed to the csv writer (header
    first), or the document handed to [json.dump]. *)
Inductive file :=
  | CsvFile (rows : list (list value))
  | JsonFile (session_info : option dict) (records : list dict).

Record world := {
  self : VoiceAgentMetrics;
  logging : list log_record;
  fs : gmap string file;
}.

(** ** State and exceptions *)

Definition M (A : Type) : Type := world → world * result A.

Definition ret {A} (a : A) : M A := λ w, (w, Ok a).

Definition bind {A B} (c : M A) (k : A → M B) : M B :=
  λ w, match c w with
       | (w', Ok a) => k a w'
       | (w', Raise e) => (w', Raise e)
       end.

Definition lift {A} (r : result A) : M A := λ w, (w, r).

Notation "x <- c ;; k" := (bind c (λ x, k))
  (at level 100, c at next level, right associativity).
Notation "c ;; k" := (bind c (λ _, k))
  (at level 100, right associativity).

Definition get_self : M VoiceAgentMetrics := λ w, (w, Ok (self w)).

Definition put_self (s : VoiceAgentMetrics) : M unit :=
  λ w, ({| self := s; logging := logging w; fs := fs w |}, Ok tt).

Definition set_interactions (l : list dict) (s : VoiceAgentMetrics) : VoiceAgentMetrics :=
  {| session_start_time := session_start_time s;
     session_end_time := session_end_time s;
     interactions := l;
     session_id := session_id s |}.

Definition logging_call (lv : level) (m : string) (a : list value) : M unit :=
  λ w, ({| self := self w;
           logging := logging w ++ [{| levelname := lv; msg := m; args := a |}];
           fs := fs w |}, Ok tt).

Definition write_file (path : string) (f : file) : M unit :=
  λ w, ({| self := self w; logging := logging w; fs := <[path := f]> (fs w) |}, Ok tt).

(** [self.interactions[i][k]] *)
Definition interaction_getitem (i : nat) (k : string) : M value :=
  s <- get_self ;;
  match interactions s !! i with
  | Some interaction => lift (getitem interaction k)
  | None => lift (Raise IndexError)
  end.

(** [self.interactions[i][k] = v]: the dict object at position [i] is
    updated in place. *)
Definition interaction_setitem (i : nat) (k : string) (v : value) : M unit :=
  s <- get_self ;;
  match interactions s !! i with
  | Some interaction =>
      put_self (set_interactions (<[i := <[k := v]> interaction]> (interactions s)) s)
  | None => lift (Raise IndexError)
  end.

(** [for i, _ in enumerate(...)] over a sequence of [n] items, from index
    [i] on; an exception in the body ends the loop. *)
Fixpoint for_enumerate (i n : nat) (body : nat → M unit) : M unit :=
  match n with
  | O => ret tt
  | S n' => body i ;; for_enumerate (S i) n' body
  end.

(** ** The methods of [VoiceAgentMetrics] *)

(** [__init__]; [stamp] is [datetime.now().strftime('%Y%m%d_%H%M%S')]. *)
Definition init (stamp : string) : VoiceAgentMetrics :=
  {| session_start_time := None;
     session_end_time := None;
     interactions := [];
     session_id := "session_" ++ stamp |}.

(** [start_session]; [now] is the reading of [time.time()]. *)
Definition start_session (now : float) : M unit :=
  s <- get_self ;;
  put_self {| session_start_time := Some now;
              session_end_time := session_end_time s;
              interactions := interactions s;
              session_id := session_id s |} ;;
  logging_call INFO "[Metrics] Session started: {}" [VStr (session_id s)].

(** [end_session]; [now] is the reading of [time.time()]. *)
Definition end_session (now : float) : M unit :=
  s <- get_self ;;
  put_self {| session_start_time := session_start_time s;
              session_end_time := Some now;
              interactions := interactions s;
              session_id := session_id s |} ;;
  logging_call INFO "[Metrics] Session ended: {}" [VStr (session_id s)].

Definition log_interaction (interaction_data : dict) : M unit :=
  s <- get_self ;;
  let interaction_data := <["session_id" := VStr (session_id s)]> interaction_data in
  put_self (set_interactions (interactions s ++ [interaction_data]) s) ;;
  interaction_id <- lift (getitem interaction_data "interaction_id") ;;
  logging_call INFO "[Metrics] Logged interaction: {}" [interaction_id].

(** The body of the loop of [calculate_metrics] at index [i];
    [interaction] is the object [self.interactions[i]]. *)
Definition recompute (i : nat) : M unit :=
  response_start_time <- interaction_getitem i "response_start_time" ;;
  speech_end_time <- interaction_getitem i "speech_end_time" ;;
  idle <- lift (Py.sub response_start_time speech_end_time) ;;
  idle <- lift (Py.round_3 idle) ;;
  interaction_setitem i "agent_idle_time_per_question" idle ;;
  match i with
  | O =>
      speech_start_time <- interaction_getitem i "speech_start_time" ;;
      s <- get_self ;;
      waiting <- lift (Py.sub speech_start_time (Py.of_attr (session_start_time s))) ;;
      waiting <- lift (Py.round_3 waiting) ;;
      interaction_setitem i "user_response_waiting_time" waiting
  | S j =>
      speech_start_time <- interaction_getitem i "speech_start_time" ;;
      agent_response_end_time <- interaction_getitem j "agent_response_end_time" ;;
      waiting <- lift (Py.sub speech_start_time agent_response_end_time) ;;
      waiting <- lift (Py.round_3 waiting) ;;
      interaction_setitem i "user_response_waiting_time" waiting
  end.

(** [sum(i[k] for i in l)]: the accumulator starts at the int [0] and the
    items are added from left to right. *)
Fixpoint sum_from (acc : value) (k : string) (l : list dict) : result value :=
  match l with
  | [] => Ok acc
  | i :: l' =>
      v ← getitem i k;
      acc' ← Py.add acc v;
      sum_from acc' k l'
  end.

Definition sum_of (k : string) (l : list dict) : result value :=
  sum_from (VInt 0) k l.

(** The summary dict of [calculate_metrics], built after the loop. *)
Definition summary_metrics (s : VoiceAgentMetrics) : result dict :=
  total_user_speaking_time ← sum_of "user_speaking_time" (interactions s);
  total_agent_reply_time ← sum_of "agent_reply_time" (interactions s);
  total_agent_idle_time ← sum_of "agent_idle_time_per_question" (interactions s);
  let num_questions := VInt (Z.of_nat (length (interactions s))) in
  r_total_user ← Py.round_3 total_user_speaking_time;
  r_average_user ← (q ← Py.truediv total_user_speaking_time num_questions; Py.round_3 q);
  r_total_reply ← Py.round_3 total_agent_reply_time;
  r_average_reply ← (q ← Py.truediv total_agent_reply_time num_questions; Py.round_3 q);
  r_total_idle ← Py.round_3 total_agent_idle_time;
  r_average_idle ← (q ← Py.truediv total_agent_idle_time num_questions; Py.round_3 q);
  r_call ← (if Py.truthy (session_end_time s)
            then d ← Py.sub (Py.of_attr (session_end_time s))
                            (Py.of_attr (session_start_time s));
                 Py.round_3 d
            else Ok (VInt 0));
  Ok (list_to_map [
    ("session_id", VStr (session_id s));
    ("total_questions", num_questions);
    ("total_user_speaking_time", r_total_user);
    ("average_user_speaking_time", r_average_user);
    ("total_agent_reply_time", r_total_reply);
    ("average_agent_reply_time", r_average_reply);
    ("total_agent_idle_time", r_total_idle);
    ("average_agent_idle_time", r_average_idle);
    ("total_voice_agent_response_time_during_start_end_call", r_call);
    ("session_start_time", Py.of_attr (session_start_time s));
    ("session_end_time", Py.of_attr (session_end_time s))
  ]).

Definition calculate_metrics : M (option dict) :=
  s <- get_self ;;
  match interactions s with
  | [] =>
      logging_call WARNING "[Metrics] No interactions recorded" [] ;;
      ret None
  | _ :: _ =>
      for_enumerate 0 (length (interactions s)) recompute ;;
      s <- get_self ;;
      summary <- lift (summary_metrics s) ;;
      ret (Some summary)
  end.

Definition fieldnames : list string := [
  "session_id"; "timestamp"; "interaction_id"; "speech_start_time"; "speech_end_time";
  "response_start_time"; "agent_response_end_time"; "user_speaking_time";
  "agent_reply_time"; "user_response_waiting_time"; "agent_idle_time_per_question"
].

(** [csv.DictWriter._dict_to_list] with the default [extrasaction='raise']
    and [restval='']. *)
Definition dict_to_list (rowdict : dict) : result (list value) :=
  let wrong_fields : gset string := dom rowdict ∖ list_to_set fieldnames in
  if bool_decide (wrong_fields = ∅)
  then Ok ((λ key, default (VStr "") (rowdict !! key)) <$> fieldnames)
  else Raise ValueError.

Definition csv_rows (f : option file) : list (list value) :=
  match f with
  | Some (CsvFile rows) => rows
  | _ => []
  end.

(** [writer.writerow(row)] on the file opened at [path]. *)
Definition writerow (path : string) (row : list value) : M unit :=
  λ w, write_file path (CsvFile (csv_rows (fs w !! path) ++ [row])) w.

(** [DictWriter.writerows]: the rows are converted and written one after
    the other. *)
Fixpoint writerows (path : string) (rowdicts : list dict) : M unit :=
  match rowdicts with
  | [] => ret tt
  | rowdict :: rest =>
      row <- lift (dict_to_list rowdict) ;;
      writerow path row ;;
      writerows path rest
  end.

Definition save_csv : M (option string) :=
  s <- get_self ;;
  match interactions s with
  | [] =>
      logging_call WARNING "[Metrics] No interactions to save to CSV" [] ;;
      ret None
  | _ :: _ =>
      let csv_file :=
        Py.path_join logs_dir ("voice_agent_metrics_" ++ session_id s ++ ".csv") in
      write_file csv_file (CsvFile []) ;;
      writerow csv_file (VStr <$> fieldnames) ;;
      writerows csv_file (interactions s) ;;
      logging_call INFO "[Metrics] CSV saved: {}" [VStr csv_file] ;;
      ret (Some csv_file)
  end.

Definition save_json : M (option string) :=
  s <- get_self ;;
  let json_file :=
    Py.path_join logs_dir ("voice_agent_metrics_" ++ session_id s ++ ".json") in
  summary <- calculate_metrics ;;
  s <- get_self ;;
  write_file json_file (JsonFile summary (interactions s)) ;;
  logging_call INFO "[Metrics] JSON saved: {}" [VStr json_file] ;;
  ret (Some json_file).

(** The exports of [Assistant.end_call] when a recorder is attached: the
    session is ended, then the tabular and the structured file are written,
    in that order. *)
Definition end_call_exports (now : float) : M (option string * option string) :=
  end_session now ;;
  csv_file <- save_csv ;;
  json_file <- save_json ;;
  ret (csv_file, json_file).

(** ** The metrics pass, record by record

    The loop of [calculate_metrics] reads, for the record at index [i], the
    record itself and its predecessor, and writes the record itself.  The
    definitions below spell this out on one record and on the sequence;
    [for_enumerate_sweep] relates them to the loop. *)

Definition with_interactions (l : list dict) (w : world) : world :=
  {| self := set_interactions l (self w); logging := logging w; fs := fs w |}.

(** The value stored under [agent_idle_time_per_question]. *)
Definition idle_of (d : dict) : result value :=
  response_start_time ← getitem d "response_start_time";
  speech_end_time ← getitem d "speech_end_time";
  idle ← Py.sub response_start_time speech_end_time;
  Py.round_3 idle.

(** The value stored under [user_response_waiting_time] for the record at
    index [i], [prev] being the record before it. *)
Definition waiting_of (start : option float) (i : nat) (prev : option dict) (d : dict)
  : result value :=
  speech_start_time ← getitem d "speech_start_time";
  since ← match i with
          | O => Ok (Py.of_attr start)
          | S _ =>
              match prev with
              | Some p => getitem p "agent_response_end_time"
              | None => Raise IndexError
              end
          end;
  waiting ← Py.sub speech_start_time since;
  Py.round_3 waiting.

(** One iteration on the record [d]: the record after it and whether it
    raised. *)
Definition step (start : option float) (i : nat) (prev : option dict) (d : dict)
  : dict * result unit :=
  match idle_of d with
  | Raise e => (d, Raise e)
  | Ok idle =>
      let d1 := <["agent_idle_time_per_question" := idle]> d in
      match waiting_of start i prev d1 with
      | Raise e => (d1, Raise e)
      | Ok waiting => (<["user_response_waiting_time" := waiting]> d1, Ok tt)
      end
  end.

(** The iterations from index [i] on, over the records [l] not yet visited. *)
Fixpoint sweep (start : option float) (i : nat) (prev : option dict) (l : list dict)
  : list dict * result unit :=
  match l with
  | [] => ([], Ok tt)
  | d :: rest =>
      match step start i prev d with
      | (d', Ok _) =>
          let '(rest', r) := sweep start (S i) (Some d') rest in
          (d' :: rest', r)
      | (d', Raise e) => (d' :: rest, Raise e)
      end
  end.

(** The world after a warning has been logged. *)
Definition warned (m : string) (w : world) : world :=
  fst (logging_call WARNING m [] w).

(** ** Records of the data model *)

Definition float_field (k : string) (d : dict) : bool :=
  match d !! k with
  | Some (VFloat _) => true
  | _ => false
  end.

Definition float_of (k : string) (d : dict) : float :=
  match d !! k with
  | Some (VFloat x) => x
  | _ => zero
  end.

(** The four timestamps and the two durations supplied by the caller are
    floats. *)
Definition interaction_record (d : dict) : bool :=
  float_field "speech_start_time" d && float_field "speech_end_time" d &&
  float_field "response_start_time" d && float_field "agent_response_end_time" d &&
  float_field "user_speaking_time" d && float_field "agent_reply_time" d.


(** Two records that differ at most in the two recomputed fields. *)
Definition same_raw (d d' : dict) : Prop :=
  ∀ k, k ≠ "agent_idle_time_per_question" → k ≠ "user_response_waiting_time" →
       d' !! k = d !! k.

(** The value the waiting time is counted from, as the loop finds it. *)
Definition counted_from (start : option float) (i : nat) (prev : option dict) (since : float)
  : Prop :=
  match i with
  | O => start = Some since
  | S _ => ∃ p, prev = Some p ∧ p !! "agent_response_end_time" = Some (VFloat since)
  end.

(** ** The derived values as the specification words them *)

Definition fsum (xs : list float) : float := fold_left PrimFloat.add xs zero.

Definition idle_time (d : dict) : float :=
  Py.round3 (float_of "response_start_time" d - float_of "speech_end_time" d).

(** [since] is the session start for the first record and the end of the
    agent's previous response for the others. *)
Definition waiting_time (since : float) (d : dict) : float :=
  Py.round3 (float_of "speech_start_time" d - since).

Definition derived (since : float) (d : dict) : dict :=
  <["user_response_waiting_time" := VFloat (waiting_time since d)]>
    (<["agent_idle_time_per_question" := VFloat (idle_time d)]> d).

Fixpoint recomputed (since : float) (l : list dict) : list dict :=
  match l with
  | [] => []
  | d :: rest => derived since d :: recomputed (float_of "agent_response_end_time" d) rest
  end.


(** ** Reading the exports back *)

(** The path of an export of a session. *)
Definition export_path (s : VoiceAgentMetrics) (ext : string) : string :=
  "logs/voice_agent_metrics_" ++ session_id s ++ ext.

(** The cells of the column [name] in the rows below the header of a
    tabular export, and the values under the key [name] in the records of a
    structured export. *)
Fixpoint position (name : string) (header : list value) : option nat :=
  match header with
  | [] => None
  | VStr h :: header' =>
      if bool_decide (h = name) then Some O else S <$> position name header'
  | _ :: header' => S <$> position name header'
  end.

Definition column (name : string) (f : file) : list (option value) :=
  match f with
  | CsvFile (header :: rows) =>
      match position name header with
      | Some j => (λ row : list value, row !! j) <$> rows
      | None => []
      end
  | CsvFile [] => []
  | JsonFile _ records => (λ d : dict, d !! name) <$> records
  end.

(** ** The scenario of the specification *)

Definition turn (id : string) (ss se rs re ust art : float) : dict :=
  list_to_map [
    ("timestamp", VStr "2025-01-01T00:00:00");
    ("interaction_id", VStr id);
    ("speech_start_time", VFloat ss);
    ("speech_end_time", VFloat se);
    ("response_start_time", VFloat rs);
    ("agent_response_end_time", VFloat re);
    ("user_speaking_time", VFloat ust);
    ("agent_reply_time", VFloat art);
    ("user_response_waiting_time", VInt 0);
    ("agent_idle_time_per_question", VInt 0)
  ].

Definition turn1 : dict := turn "call_1" 1000.5 1002 1002 1004 1.5 2.
Definition turn2 : dict := turn "call_2" 1010 1011 1011.5 1013 1 1.5.

Definition fresh_world (stamp : string) : world :=
  {| self := init stamp; logging := []; fs := ∅ |}.

(** A session started at t=1000 with the two turns logged. *)
Definition scenario : world :=
  fst ((start_session 1000 ;; log_interaction turn1 ;; log_interaction turn2)
         (fresh_world "20250101_000000")).

(** The same session with only the first turn. *)
Definition scenario1 : world :=
  fst ((start_session 1000 ;; log_interaction turn1) (fresh_world "20250101_000000")).

(** * The console report, the agent and the HTTP endpoints

    The rest of main.py: the report printed at the end of a call, the
    [Assistant] that feeds the recorder, the end of a call and the three
    endpoints.  The clock readings ([time.time()]), the time stamps
    ([datetime.now().isoformat()]) and the text heard are arguments; the
    speech pipeline and the room service are reduced to what the code hands
    them: the text spoken and whether the room was deleted. *)

(** ** Formatting *)

(** The format specs of the report and of the log lines: ['<w'] and
    ['<w.pf'] (['.pf'] is width 0). *)
Inductive format_spec :=
  | Plain (width : nat)
  | Fixed (width precision : nat).

(** What a [print] call writes: literal text and formatted values.  The
    digits a number is rendered with are not modelled; whether formatting
    it raises is. *)
Inductive piece :=
  | Text (s : string)
  | Field (v : value) (spec : format_spec).

Abbreviation line := (list piece).

(** [format(v, spec)] *)
Definition format (v : value) (spec : format_spec) : result piece :=
  match spec, v with
  | _, VNone => Raise TypeError
  | Fixed _ _, VStr _ => Raise ValueError
  | Fixed _ _, VInt n =>
      match Py.float_of_int n with
      | Ok _ => Ok (Field v spec)
      | Raise e => Raise e
      end
  | _, _ => Ok (Field v spec)
  end.

(** [s * n] and [format(s, '<w')] on a string. *)
Fixpoint repeat_str (s : string) (n : nat) : string :=
  match n with
  | O => ""
  | S n' => s ++ repeat_str s n'
  end.

Definition ljust (w : nat) (s : string) : string :=
  s ++ repeat_str " " (w - String.length s).

Definition nl : string := String "010"%char "".

(** ** The process: agent, recorder, console, speech and room *)

Record Assistant := {
  metrics : bool;
  conversation_id : string;
  interaction_count : Z;
  current_speech_start_time : option float;
  current_speech_end_time : option float;
  current_response_start_time : option float;
  current_response_end_time : option float;
}.

Record process := {
  agent : Assistant;
  env : world;
  stdout : list line;
  spoken : list string;
  room_deleted : bool;
}.

Definition P (A : Type) : Type := process → process * result A.

Definition retP {A} (a : A) : P A := λ p, (p, Ok a).

Definition bindP {A B} (c : P A) (k : A → P B) : P B :=
  λ p, match c p with
       | (p', Ok a) => k a p'
       | (p', Raise e) => (p', Raise e)
       end.

Notation "x <~ c ;; k" := (bindP c (λ x, k))
  (at level 100, c at next level, right associativity).
Notation "c ;;; k" := (bindP c (λ _, k))
  (at level 100, right associativity).

(** A method of the recorder run inside the process. *)
Definition call {A} (c : M A) : P A :=
  λ p, let '(w, r) := c (env p) in
       ({| agent := agent p; env := w; stdout := stdout p; spoken := spoken p;
           room_deleted := room_deleted p |}, r).

Definition liftP {A} (r : result A) : P A := λ p, (p, r).

Definition print (l : line) : P unit :=
  λ p, ({| agent := agent p; env := env p; stdout := stdout p ++ [l];
           spoken := spoken p; room_deleted := room_deleted p |}, Ok tt).





(** ** [print_human_readable_table] *)

(** The f-string of one row of the interactions table. *)
Definition table_row (i : Z) (interaction : dict) : result line :=
  f_i ← format (VInt i) (Plain 4);
  waiting ← getitem interaction "user_response_waiting_time";
  f_waiting ← format waiting (Fixed 10 3);
  speaking ← getitem interaction "user_speaking_time";
  f_speaking ← format speaking (Fixed 11 3);
  idle ← getitem interaction "agent_idle_time_per_question";
  f_idle ← format idle (Fixed 11 3);
  reply ← getitem interaction "agent_reply_time";
  f_reply ← format reply (Fixed 11 3);
  Ok [f_i; Text " "; f_waiting; Text " "; f_speaking; Text " "; f_idle; Text " "; f_reply].

(** [for i, interaction in enumerate(l, i): print(...)] *)
Fixpoint print_rows (i : Z) (l : list dict) : P unit :=
  match l with
  | [] => retP tt
  | interaction :: rest =>
      row <~ liftP (table_row i interaction) ;;
      print row ;;;
      print_rows (i + 1) rest
  end.

(** The f-string of one line of the summary table; [summary] is what
    [calculate_metrics] returned. *)
Definition summary_row (label : string) (summary : option dict) (key : string)
    (spec : format_spec) : result line :=
  match summary with
  | None => Raise TypeError
  | Some d =>
      v ← getitem d key;
      f ← format v spec;
      Ok [Text (ljust 40 label ++ " "); f]
  end.

Definition print_human_readable_table : P unit :=
  s <~ call get_self ;;
  match interactions s with
  | [] => print [Text "No interactions recorded."]
  | _ :: _ =>
      summary <~ call calculate_metrics ;;
      s <~ call get_self ;;
      print [Text (nl ++ repeat_str "=" 80)] ;;;
      print [Text ("VOICE AGENT METRICS REPORT - " ++ session_id s)] ;;;
      print [Text (repeat_str "=" 80)] ;;;
      print [Text (nl ++ "INTERACTIONS:")] ;;;
      print [Text (ljust 4 "ID" ++ " " ++ ljust 10 "User Wait" ++ " "
                        ++ ljust 11 "User Speak" ++ " " ++ ljust 11 "Agent Idle" ++ " "
                        ++ ljust 11 "Agent Reply")] ;;;
      print [Text (repeat_str "-" 4 ++ " " ++ repeat_str "-" 10 ++ " "
                        ++ repeat_str "-" 11 ++ " " ++ repeat_str "-" 11 ++ " "
                        ++ repeat_str "-" 11)] ;;;
      print_rows 1 (interactions s) ;;;
      print [Text (nl ++ "SUMMARY:")] ;;;
      print [Text (ljust 40 "Metric" ++ " " ++ ljust 15 "Value")] ;;;
      print [Text (repeat_str "-" 40 ++ " " ++ repeat_str "-" 15)] ;;;
      r <~ liftP (summary_row "Total Questions" summary "total_questions" (Plain 15)) ;;
      print r ;;;
      r <~ liftP (summary_row "Total User Speaking Time (s)" summary
                    "total_user_speaking_time" (Fixed 15 3)) ;;
      print r ;;;
      r <~ liftP (summary_row "Average User Speaking Time (s)" summary
                    "average_user_speaking_time" (Fixed 15 3)) ;;
      print r ;;;
      r <~ liftP (summary_row "Total Agent Reply Time (s)" summary
                    "total_agent_reply_time" (Fixed 15 3)) ;;
      print r ;;;
      r <~ liftP (summary_row "Average Agent Reply Time (s)" summary
                    "average_agent_reply_time" (Fixed 15 3)) ;;
      print r ;;;
      r <~ liftP (summary_row "Total Agent Idle Time (s)" summary
                    "total_agent_idle_time" (Fixed 15 3)) ;;
      print r ;;;
      r <~ liftP (summary_row "Average Agent Idle Time (s)" summary
                    "average_agent_idle_time" (Fixed 15 3)) ;;
      print r ;;;
      r <~ liftP (summary_row "Total Session Time (s)" summary
                    "total_voice_agent_response_time_during_start_end_call" (Fixed 15 3)) ;;
      print r ;;;
      print [Text (repeat_str "=" 80)]
  end.

(** ** [Assistant] *)

(** [s.lower()] on the letters A to Z. *)
Definition lower_char (c : ascii) : ascii :=
  let n := nat_of_ascii c in
  if (65 <=? n)%nat && (n <=? 90)%nat then ascii_of_nat (n + 32) else c.

Fixpoint lower (s : string) : string :=
  match s with
  | EmptyString => EmptyString
  | String c s' => String (lower_char c) (lower s')
  end.

(** [needle in hay] *)
Fixpoint contains (needle hay : string) : bool :=
  String.prefix needle hay ||
  match hay with
  | EmptyString => false
  | String _ hay' => contains needle hay'
  end.

Definition run_llm (input_text : string) : string :=
  if contains "order" (lower input_text) then
    "I can help you with your order. What would you like to order?"
  else if contains "availability" (lower input_text)
          || contains "available" (lower input_text) then
    "Let me check the availability for you."
  else if contains "end" (lower input_text) || contains "bye" (lower input_text)
          || contains "goodbye" (lower input_text) then
    "Thank you for calling. Have a great day!"
  else
    "I understand you said: " ++ input_text ++ ". How can I help you with your request?".













(** ** The HTTP endpoints *)






(** A process with nothing printed, nothing said and the room in place. *)
Definition fresh_process (stamp : string) : process :=
  {| agent := {| metrics := false; conversation_id := ""; interaction_count := 0;
                 current_speech_start_time := None; current_speech_end_time := None;
                 current_response_start_time := None;
                 current_response_end_time := None |};
     env := fresh_world stamp;
     stdout := [];
     spoken := [];
     room_deleted := false |}.

(** ** Views used in the statements below *)

Definition with_env (w : world) (p : process) : process :=
  {| agent := agent p; env := w; stdout := stdout p; spoken := spoken p;
     room_deleted := room_deleted p |}.




(** ** The report as the source lays it out *)

Definition add_stdout (ls : list line) (p : process) : process :=
  {| agent := agent p; env := env p; stdout := stdout p ++ ls; spoken := spoken p;
     room_deleted := room_deleted p |}.

(** The four fields of a record the interactions table shows are floats. *)
Definition printable (d : dict) : bool :=
  float_field "user_response_waiting_time" d && float_field "user_speaking_time" d &&
  float_field "agent_idle_time_per_question" d && float_field "agent_reply_time" d.

Definition report_header (sid : string) : list line := [
  [Text (nl ++ repeat_str "=" 80)];
  [Text ("VOICE AGENT METRICS REPORT - " ++ sid)];
  [Text (repeat_str "=" 80)];
  [Text (nl ++ "INTERACTIONS:")];
  [Text "ID   User Wait  User Speak  Agent Idle  Agent Reply"];
  [Text "---- ---------- ----------- ----------- -----------"]
].

Definition report_row (i : Z) (d : dict) : line := [
  Field (VInt i) (Plain 4); Text " ";
  Field (default VNone (d !! "user_response_waiting_time")) (Fixed 10 3); Text " ";
  Field (default VNone (d !! "user_speaking_time")) (Fixed 11 3); Text " ";
  Field (default VNone (d !! "agent_idle_time_per_question")) (Fixed 11 3); Text " ";
  Field (default VNone (d !! "agent_reply_time")) (Fixed 11 3)
].

Fixpoint report_rows (i : Z) (l : list dict) : list line :=
  match l with
  | [] => []
  | d :: rest => report_row i d :: report_rows (i + 1) rest
  end.

Definition report_value (label : string) (summary : dict) (key : string)
    (spec : format_spec) : line :=
  [Text (ljust 40 label ++ " "); Field (default VNone (summary !! key)) spec].

Definition report_footer (summary : dict) : list line := [
  [Text (nl ++ "SUMMARY:")];
  [Text (ljust 40 "Metric" ++ " " ++ ljust 15 "Value")];
  [Text (repeat_str "-" 40 ++ " " ++ repeat_str "-" 15)];
  report_value "Total Questions" summary "total_questions" (Plain 15);
  report_value "Total User Speaking Time (s)" summary "total_user_speaking_time" (Fixed 15 3);
  report_value "Average User Speaking Time (s)" summary "average_user_speaking_time"
    (Fixed 15 3);
  report_value "Total Agent Reply Time (s)" summary "total_agent_reply_time" (Fixed 15 3);
  report_value "Average Agent Reply Time (s)" summary "average_agent_reply_time" (Fixed 15 3);
  report_value "Total Agent Idle Time (s)" summary "total_agent_idle_time" (Fixed 15 3);
  report_value "Average Agent Idle Time (s)" summary "average_agent_idle_time" (Fixed 15 3);
  report_value "Total Session Time (s)" summary
    "total_voice_agent_response_time_during_start_end_call" (Fixed 15 3);
  [Text (repeat_str "=" 80)]
].



(** ** The records the agent logs *)








(** * Properties *)

Local Open Scope list_scope.

(** ** Sanity checks of the arithmetic *)

Example round3_half : Py.round3 (1000.5 - 1000)%float = 0.5%float.
Proof. reflexivity. Qed.

Example round3_ties_to_even :
  Py.round3 0.0625%float = Py.float_of_ratio 62 1000
  ∧ Py.round3 0.1875%float = Py.float_of_ratio 188 1000.
Proof. split; reflexivity. Qed.

Example round3_keeps_sign : Py.round3 (- 0.000244140625)%float = neg_zero.
Proof. reflexivity. Qed.

Example float_of_int_exact : Py.float_of_int 1020 = Ok 1020%float.
Proof. reflexivity. Qed.

Example float_of_int_rounds : Py.float_of_int (2 ^ 53 + 1) = Ok 9007199254740992%float.
Proof. reflexivity. Qed.

Example float_of_int_largest :
  is_infinity (Py.to_float (Py.overflow_bound - 1)) = false
  ∧ is_infinity (Py.to_float Py.overflow_bound) = true.
Proof. split; vm_compute; reflexivity. Qed.

Example path_join_relative : Py.path_join logs_dir "voice_agent_metrics_s.csv"
  = "logs/voice_agent_metrics_s.csv".
Proof. reflexivity. Qed.

Example scenario_pass :
  (λ d : dict, (d !! "agent_idle_time_per_question", d !! "user_response_waiting_time"))
    <$> interactions (self (fst (calculate_metrics scenario)))
  = [(Some (VFloat 0), Some (VFloat 0.5)); (Some (VFloat 0.5), Some (VFloat 6))].
Proof. vm_compute. reflexivity. Qed.

Example scenario_duration :
  match snd ((end_session 1020 ;; calculate_metrics) scenario) with
  | Ok (Some summary) =>
      summary !! "total_voice_agent_response_time_during_start_end_call"
  | _ => None
  end = Some (VFloat 20).
Proof. vm_compute. reflexivity. Qed.

(** ** Running the monad *)

Lemma with_interactions_id (w : world) : with_interactions (interactions (self w)) w = w.
Proof. by destruct w as [[] ? ?]. Qed.

Lemma interaction_getitem_run (i : nat) (k : string) (w : world) (d : dict) :
  interactions (self w) !! i = Some d →
  interaction_getitem i k w = (w, getitem d k).
Proof.
  intros Hd. unfold interaction_getitem, bind, get_self, lift. by rewrite Hd.
Qed.

Lemma interaction_setitem_run (i : nat) (k : string) (v : value) (w : world) (d : dict) :
  interactions (self w) !! i = Some d →
  interaction_setitem i k v w
  = (with_interactions (<[i := <[k := v]> d]> (interactions (self w))) w, Ok tt).
Proof.
  intros Hd. unfold interaction_setitem, bind, get_self, put_self. by rewrite Hd.
Qed.

Lemma getitem_insert_ne (d : dict) (k k' : string) (v : value) :
  k ≠ k' → getitem (<[k := v]> d) k' = getitem d k'.
Proof. intros Hk. unfold getitem. by rewrite lookup_insert_ne. Qed.

Lemma with_interactions_keep (i : nat) (w : world) (d : dict) :
  interactions (self w) !! i = Some d →
  with_interactions (<[i := d]> (interactions (self w))) w = w.
Proof. intros Hd. by rewrite list_insert_id, with_interactions_id. Qed.

(** The loop body is one [step] on the record at index [i]. *)
Lemma recompute_step (i : nat) (w : world) (d : dict) :
  interactions (self w) !! i = Some d →
  let l := interactions (self w) in
  let prev := match i with O => None | S j => l !! j end in
  recompute i w
  = (with_interactions (<[i := fst (step (session_start_time (self w)) i prev d)]> l) w,
     snd (step (session_start_time (self w)) i prev d)).
Proof.
  intros Hd l prev. subst l prev.
  assert (Hi : i < length (interactions (self w))) by (eapply lookup_lt_Some; eauto).
  pose proof (with_interactions_keep _ _ _ Hd) as Hkeep.
  unfold recompute, step, idle_of.
  unfold bind at 1. rewrite (interaction_getitem_run _ _ _ _ Hd).
  destruct (getitem d "response_start_time") as [rs|e]; simpl; [|by rewrite Hkeep].
  unfold bind at 1. rewrite (interaction_getitem_run _ _ _ _ Hd).
  destruct (getitem d "speech_end_time") as [se|e]; simpl; [|by rewrite Hkeep].
  unfold bind at 1, lift at 1.
  destruct (Py.sub rs se) as [x|e]; simpl; [|by rewrite Hkeep].
  unfold bind at 1, lift at 1.
  destruct (Py.round_3 x) as [idle|e]; simpl; [|by rewrite Hkeep].
  unfold bind at 1. rewrite (interaction_setitem_run _ _ _ _ _ Hd).
  set (d1 := <["agent_idle_time_per_question" := idle]> d).
  set (w1 := with_interactions (<[i := d1]> (interactions (self w))) w).
  assert (Hd1 : interactions (self w1) !! i = Some d1).
  { simpl. by apply list_lookup_insert_eq. }
  unfold waiting_of.
  destruct i as [|j].
  - unfold bind at 1. rewrite (interaction_getitem_run _ _ _ _ Hd1).
    destruct (getitem d1 "speech_start_time") as [ss|e]; simpl; [|done].
    unfold bind at 1, get_self at 1. unfold bind at 1, lift at 1. simpl.
    destruct (Py.sub ss (Py.of_attr (session_start_time (self w)))) as [y|e]; simpl; [|done].
    unfold bind at 1, lift at 1.
    destruct (Py.round_3 y) as [waiting|e]; simpl; [|done].
    rewrite (interaction_setitem_run _ _ _ _ _ Hd1). simpl.
    by rewrite list_insert_insert_eq.
  - unfold bind at 1. rewrite (interaction_getitem_run _ _ _ _ Hd1).
    destruct (getitem d1 "speech_start_time") as [ss|e]; simpl; [|done].
    unfold bind at 1.
    destruct (interactions (self w) !! j) as [p|] eqn:Hp.
    2:{ apply lookup_ge_None in Hp. lia. }
    assert (Hp1 : interactions (self w1) !! j = Some p).
    { simpl. rewrite list_lookup_insert_ne by lia. done. }
    rewrite (interaction_getitem_run _ _ _ _ Hp1).
    destruct (getitem p "agent_response_end_time") as [re|e]; simpl; [|done].
    unfold bind at 1, lift at 1.
    destruct (Py.sub ss re) as [y|e]; simpl; [|done].
    unfold bind at 1, lift at 1.
    destruct (Py.round_3 y) as [waiting|e]; simpl; [|done].
    rewrite (interaction_setitem_run _ _ _ _ _ Hd1). simpl.
    by rewrite list_insert_insert_eq.
Qed.

Lemma prev_is_last (pre suf : list dict) :
  match length pre with O => None | S j => (pre ++ suf)%list !! j end = last pre.
Proof.
  destruct pre as [|x pre]; [done|].
  rewrite last_lookup. cbn [length Nat.pred].
  apply lookup_app_l. simpl. lia.
Qed.

(** The loop from index [length pre] on is a [sweep] of the records that
    remain. *)
Lemma for_enumerate_sweep (suf pre : list dict) (w : world) :
  interactions (self w) = (pre ++ suf)%list →
  for_enumerate (length pre) (length suf) recompute w
  = (with_interactions
       (pre ++ fst (sweep (session_start_time (self w)) (length pre) (last pre) suf))%list w,
     snd (sweep (session_start_time (self w)) (length pre) (last pre) suf)).
Proof.
  revert pre w. induction suf as [|d rest IH]; intros pre w Hl.
  - cbn [for_enumerate length sweep fst snd]. unfold ret.
    by rewrite <- Hl, with_interactions_id.
  - assert (Hd : interactions (self w) !! length pre = Some d).
    { rewrite Hl. by apply list_lookup_middle. }
    cbn [for_enumerate length sweep]. unfold bind.
    rewrite (recompute_step _ _ _ Hd). cbv zeta.
    rewrite Hl, prev_is_last.
    destruct (step (session_start_time (self w)) (length pre) (last pre) d)
      as [d' [[]|e]] eqn:Hstep; cbn [fst snd].
    + assert (Hins : <[length pre := d']> (pre ++ d :: rest)%list = ((pre ++ [d']) ++ rest)%list).
      { rewrite <- app_assoc. simpl. by rewrite insert_app_r_alt, Nat.sub_diag by lia. }
      rewrite Hins.
      set (w1 := with_interactions ((pre ++ [d']) ++ rest)%list w).
      specialize (IH (pre ++ [d']) w1 eq_refl).
      rewrite length_app, Nat.add_1_r, last_snoc in IH. rewrite IH. simpl.
      destruct (sweep (session_start_time (self w)) (S (length pre)) (Some d') rest)
        as [rest' r]. simpl.
      by rewrite <- app_assoc.
    + by rewrite insert_app_r_alt, Nat.sub_diag by lia.
Qed.

Lemma calculate_metrics_empty (w : world) :
  interactions (self w) = [] →
  calculate_metrics w = (warned "[Metrics] No interactions recorded" w, Ok None).
Proof.
  intros Hl. unfold calculate_metrics, bind, get_self. by rewrite Hl.
Qed.

(** On a non-empty sequence [calculate_metrics] is the sweep of all the
    records followed by the summary of the result. *)
Lemma calculate_metrics_nonempty (w : world) :
  interactions (self w) ≠ [] →
  let pass := sweep (session_start_time (self w)) 0 None (interactions (self w)) in
  let w' := with_interactions (fst pass) w in
  calculate_metrics w
  = (w', match snd pass with
         | Raise e => Raise e
         | Ok _ =>
             match summary_metrics (self w') with
             | Ok summary => Ok (Some summary)
             | Raise e => Raise e
             end
         end).
Proof.
  intros Hl pass w'. unfold calculate_metrics. unfold bind at 1, get_self at 1.
  destruct (interactions (self w)) as [|d rest] eqn:Heq; [done|].
  unfold bind at 1.
  pose proof (for_enumerate_sweep (d :: rest) [] w Heq) as Hloop.
  cbn [length app last] in Hloop. cbn [length]. rewrite Hloop.
  subst w' pass. destruct (sweep _ 0 None (d :: rest)) as [l' [[]|e]]; cbn [fst snd]; [|done].
  unfold bind at 1, get_self at 1. unfold bind at 1, lift at 1.
  by destruct (summary_metrics _).
Qed.

(** ** What a pass leaves alone *)

Lemma same_raw_refl (d : dict) : same_raw d d.
Proof. by intros k _ _. Qed.

Lemma same_raw_trans (d1 d2 d3 : dict) : same_raw d1 d2 → same_raw d2 d3 → same_raw d1 d3.
Proof. intros H12 H23 k Hi Hw. by rewrite H23, H12. Qed.

Lemma same_raw_idle (d : dict) (v : value) :
  same_raw d (<["agent_idle_time_per_question" := v]> d).
Proof. intros k Hi _. by rewrite lookup_insert_ne. Qed.

Lemma same_raw_waiting (d : dict) (v : value) :
  same_raw d (<["user_response_waiting_time" := v]> d).
Proof. intros k _ Hw. by rewrite lookup_insert_ne. Qed.

Lemma getitem_same_raw (d d' : dict) (k : string) :
  same_raw d d' →
  k ≠ "agent_idle_time_per_question" → k ≠ "user_response_waiting_time" →
  getitem d' k = getitem d k.
Proof. intros H Hi Hw. unfold getitem. by rewrite H. Qed.

Lemma idle_of_same_raw (d d' : dict) : same_raw d d' → idle_of d' = idle_of d.
Proof.
  intros H. unfold idle_of. by rewrite !(getitem_same_raw _ _ _ H).
Qed.

Lemma waiting_of_same_raw (start : option float) (i : nat) (prev : option dict) (d d' : dict) :
  same_raw d d' → waiting_of start i prev d' = waiting_of start i prev d.
Proof.
  intros H. unfold waiting_of. by rewrite !(getitem_same_raw _ _ _ H).
Qed.

Lemma step_same_raw (start : option float) (i : nat) (prev : option dict) (d : dict) :
  same_raw d (fst (step start i prev d)).
Proof.
  unfold step. destruct (idle_of d) as [idle|e]; [|apply same_raw_refl].
  destruct (waiting_of _ _ _ _) as [waiting|e]; cbn [fst].
  - eapply same_raw_trans; [apply same_raw_idle|apply same_raw_waiting].
  - apply same_raw_idle.
Qed.

Lemma insert_derived_again (d : dict) (a b : value) :
  let d' := <["user_response_waiting_time" := b]> (<["agent_idle_time_per_question" := a]> d) in
  <["user_response_waiting_time" := b]> (<["agent_idle_time_per_question" := a]> d') = d'.
Proof.
  intros d'. subst d'. apply map_eq. intros k.
  destruct (decide (k = "user_response_waiting_time")) as [->|Hw];
    [by rewrite !lookup_insert_eq|].
  rewrite (lookup_insert_ne _ "user_response_waiting_time") by done.
  destruct (decide (k = "agent_idle_time_per_question")) as [->|Hi].
  - rewrite lookup_insert_eq, lookup_insert_ne by done. by rewrite lookup_insert_eq.
  - by rewrite !lookup_insert_ne by done.
Qed.

(** A second iteration on the record a first one produced changes nothing
    and ends the same way. *)
Lemma step_idem (start : option float) (i : nat) (prev : option dict) (d : dict) :
  step start i prev (fst (step start i prev d)) = step start i prev d.
Proof.
  unfold step. destruct (idle_of d) as [idle|e] eqn:Hidle; cbn [fst].
  2:{ by rewrite Hidle. }
  set (d1 := <["agent_idle_time_per_question" := idle]> d).
  destruct (waiting_of start i prev d1) as [waiting|e] eqn:Hwait; cbn [fst].
  - rewrite (idle_of_same_raw d), Hidle.
    2:{ eapply same_raw_trans; [apply same_raw_idle|apply same_raw_waiting]. }
    rewrite (waiting_of_same_raw _ _ _ d1), Hwait.
    2:{ eapply same_raw_trans; [apply same_raw_waiting|apply same_raw_idle]. }
    subst d1. by rewrite insert_derived_again.
  - rewrite (idle_of_same_raw d), Hidle by apply same_raw_idle.
    subst d1. rewrite insert_insert_eq. by rewrite Hwait.
Qed.

Lemma sweep_length (start : option float) (l : list dict) :
  ∀ i prev, length (fst (sweep start i prev l)) = length l.
Proof.
  induction l as [|d rest IH]; intros i prev; [done|].
  cbn [sweep]. destruct (step start i prev d) as [d' [[]|e]]; [|done].
  specialize (IH (S i) (Some d')).
  destruct (sweep start (S i) (Some d') rest) as [rest' r]. simpl in *. by rewrite IH.
Qed.

Lemma sweep_same_raw (start : option float) (l : list dict) :
  ∀ i prev, Forall2 same_raw l (fst (sweep start i prev l)).
Proof.
  induction l as [|d rest IH]; intros i prev; [constructor|].
  cbn [sweep]. pose proof (step_same_raw start i prev d) as Hd.
  destruct (step start i prev d) as [d' [[]|e]]; cbn [fst] in *.
  - specialize (IH (S i) (Some d')).
    destruct (sweep start (S i) (Some d') rest) as [rest' r]. by constructor.
  - constructor; [done|]. apply Forall2_same_length_lookup_2; [done|].
    intros j x y Hx Hy. rewrite Hx in Hy. injection Hy as ->. apply same_raw_refl.
Qed.

(** A second pass over the records a first one produced changes nothing and
    ends the same way. *)
Lemma sweep_idem (start : option float) (l : list dict) :
  ∀ i prev, sweep start i prev (fst (sweep start i prev l)) = sweep start i prev l.
Proof.
  induction l as [|d rest IH]; intros i prev; [done|].
  cbn [sweep]. pose proof (step_idem start i prev d) as Hd.
  destruct (step start i prev d) as [d' [[]|e]] eqn:Hstep; cbn [fst] in *.
  - specialize (IH (S i) (Some d')).
    destruct (sweep start (S i) (Some d') rest) as [rest' r] eqn:Hrest.
    cbn [fst sweep] in *. by rewrite Hd, IH.
  - cbn [sweep]. by rewrite Hd.
Qed.

(** ** The empty session *)

(** C5: on a recorder whose interaction sequence is empty,
    [calculate_metrics] logs one warning and returns [None] without
    raising; the recorder and the files are untouched.  Nothing is assumed
    about [session_start_time] and [session_end_time]. *)
Theorem calculate_metrics_no_interactions (w : world) :
  interactions (self w) = [] →
  ∃ w', calculate_metrics w = (w', Ok None)
        ∧ self w' = self w
        ∧ fs w' = fs w
        ∧ logging w' = logging w ++ [{| levelname := WARNING;
                                        msg := "[Metrics] No interactions recorded";
                                        args := [] |}].
Proof.
  intros Hl. eexists. split; [by apply calculate_metrics_empty|]. done.
Qed.

Lemma calculate_metrics_no_interactions_witness :
  ∃ w', calculate_metrics (fresh_world "20250101_000000") = (w', Ok None)
        ∧ self w' = self (fresh_world "20250101_000000")
        ∧ fs w' = fs (fresh_world "20250101_000000")
        ∧ logging w' = logging (fresh_world "20250101_000000")
                       ++ [{| levelname := WARNING;
                              msg := "[Metrics] No interactions recorded";
                              args := [] |}].
Proof.
  apply (calculate_metrics_no_interactions (fresh_world "20250101_000000")).
  reflexivity.
Defined.

(** ** Idempotence and frame of the metrics pass *)

(** C6: calling [calculate_metrics] twice in a row returns the same result
    both times (the same summary, the same [None] or the same exception)
    and the second call leaves the recorder, in particular every stored
    record, as the first call left it. *)
Theorem calculate_metrics_idempotent (w : world) :
  let first := calculate_metrics w in
  let second := calculate_metrics (fst first) in
  snd second = snd first ∧ self (fst second) = self (fst first).
Proof.
  intros first second. subst second first.
  destruct (interactions (self w)) as [|d rest] eqn:Hl.
  - rewrite (calculate_metrics_empty w Hl). cbn [fst].
    by rewrite calculate_metrics_empty.
  - assert (Hne : interactions (self w) ≠ []) by (by rewrite Hl).
    rewrite (calculate_metrics_nonempty w Hne). cbv zeta. cbn [fst].
    set (start := session_start_time (self w)).
    set (l := interactions (self w)).
    set (w1 := with_interactions (fst (sweep start 0 None l)) w).
    assert (Hne1 : interactions (self w1) ≠ []).
    { simpl. intros Hnil. apply (f_equal length) in Hnil.
      rewrite sweep_length in Hnil. subst l. by rewrite Hl in Hnil. }
    rewrite (calculate_metrics_nonempty w1 Hne1). cbv zeta. cbn [fst snd].
    change (session_start_time (self w1)) with start.
    change (interactions (self w1)) with (fst (sweep start 0 None l)).
    rewrite sweep_idem. done.
Qed.

(** C10: [calculate_metrics] changes nothing but the two fields
    [agent_idle_time_per_question] and [user_response_waiting_time] of the
    stored records: the records are as many and in the same order, every
    other field of every record is as before (present with the same value,
    or absent), and so are [session_id], [session_start_time] and
    [session_end_time].  This holds in every state, hence in those with a
    non-empty sequence and a start time. *)
Theorem calculate_metrics_frame (w : world) :
  let w' := fst (calculate_metrics w) in
  Forall2 same_raw (interactions (self w)) (interactions (self w'))
  ∧ session_id (self w') = session_id (self w)
  ∧ session_start_time (self w') = session_start_time (self w)
  ∧ session_end_time (self w') = session_end_time (self w).
Proof.
  intros w'. subst w'.
  destruct (interactions (self w)) as [|d rest] eqn:Hl.
  - rewrite (calculate_metrics_empty w Hl). simpl. rewrite Hl. by repeat split.
  - assert (Hne : interactions (self w) ≠ []) by (by rewrite Hl).
    rewrite (calculate_metrics_nonempty w Hne). cbv zeta. cbn [fst].
    split; [|done]. simpl. rewrite <- Hl. apply sweep_same_raw.
Qed.

(** ** A session that was never started *)

Lemma step_unstarted (prev : option dict) (d : dict) :
  step None 0 prev d
  = match idle_of d with
    | Raise e => (d, Raise e)
    | Ok idle =>
        (<["agent_idle_time_per_question" := idle]> d,
         match d !! "speech_start_time" with
         | Some _ => Raise TypeError
         | None => Raise (KeyError "speech_start_time")
         end)
    end.
Proof.
  unfold step. destruct (idle_of d) as [idle|e]; [|done].
  unfold waiting_of. rewrite getitem_insert_ne by done. unfold getitem.
  destruct (d !! "speech_start_time") as [[]|]; done.
Qed.

(** C9: with [session_start_time] still unset and at least one record
    logged, [calculate_metrics] raises instead of returning [None].  When
    the idle time of the first record can be computed, the exception comes
    from the waiting time of that record: the idle time has been stored,
    nothing else has changed, and the exception is a [TypeError] whenever
    the record has a [speech_start_time]. *)
Theorem calculate_metrics_unstarted (w : world) (d : dict) (rest : list dict) :
  session_start_time (self w) = None →
  interactions (self w) = d :: rest →
  (∃ e, snd (calculate_metrics w) = Raise e)
  ∧ ∀ idle, idle_of d = Ok idle →
      interactions (self (fst (calculate_metrics w)))
      = <["agent_idle_time_per_question" := idle]> d :: rest
      ∧ (is_Some (d !! "speech_start_time") → snd (calculate_metrics w) = Raise TypeError).
Proof.
  intros Hstart Hl.
  assert (Hne : interactions (self w) ≠ []) by (by rewrite Hl).
  rewrite (calculate_metrics_nonempty w Hne). cbv zeta. cbn [fst snd].
  rewrite Hstart, Hl. cbn [sweep]. rewrite step_unstarted.
  destruct (idle_of d) as [idle|e]; cbn [fst snd].
  - destruct (d !! "speech_start_time") as [ss|] eqn:Hss; cbn [fst snd].
    + split; [eauto|]. by intros ? [= <-].
    + split; [eauto|]. intros ? [= <-]. split; [done|]. by intros [ss [=]].
  - split; [eauto|]. by intros.
Qed.

Lemma calculate_metrics_unstarted_witness :
  (∃ e, snd (calculate_metrics (fst (log_interaction turn1 (fresh_world "20250101_000000"))))
        = Raise e)
  ∧ ∀ idle, idle_of (<["session_id" := VStr "session_20250101_000000"]> turn1) = Ok idle →
      interactions (self (fst (calculate_metrics
                                 (fst (log_interaction turn1 (fresh_world "20250101_000000"))))))
      = [<["agent_idle_time_per_question" := idle]>
           (<["session_id" := VStr "session_20250101_000000"]> turn1)]
      ∧ (is_Some ((<["session_id" := VStr "session_20250101_000000"]> turn1)
                    !! "speech_start_time") →
         snd (calculate_metrics (fst (log_interaction turn1 (fresh_world "20250101_000000"))))
         = Raise TypeError).
Proof.
  apply (calculate_metrics_unstarted
           (fst (log_interaction turn1 (fresh_world "20250101_000000")))
           (<["session_id" := VStr "session_20250101_000000"]> turn1) []);
    reflexivity.
Defined.

(** ** Logging an interaction *)




(** ** The structured export of an empty session *)


(** C4, what the code does: on a recorder with no interaction record
    [save_json] has no guard of its own.  The warning of
    [calculate_metrics] is logged, then a document with a null
    [session_info] and no record is written and its path is returned; no
    exception is raised. *)
Theorem save_json_no_interactions (w : world) :
  interactions (self w) = [] →
  let json_file := export_path (self w) ".json" in
  ∃ w', save_json w = (w', Ok (Some json_file))
        ∧ fs w' = <[json_file := JsonFile None []]> (fs w)
        ∧ self w' = self w
        ∧ logging w' = logging w
            ++ [{| levelname := WARNING; msg := "[Metrics] No interactions recorded";
                   args := [] |};
                {| levelname := INFO; msg := "[Metrics] JSON saved: {}";
                   args := [VStr json_file] |}].
Proof.
  intros Hl json_file. subst json_file. unfold save_json, export_path.
  unfold bind at 1, get_self at 1. unfold bind at 1.
  rewrite (calculate_metrics_empty w Hl).
  unfold bind, get_self, write_file, logging_call, ret, warned. cbn.
  rewrite Hl. eexists. split; [reflexivity|]. cbn. rewrite <- app_assoc. done.
Qed.

Lemma save_json_no_interactions_witness :
  let w := fresh_world "20250101_000000" in
  let json_file := export_path (self w) ".json" in
  ∃ w', save_json w = (w', Ok (Some json_file))
        ∧ fs w' = <[json_file := JsonFile None []]> (fs w)
        ∧ self w' = self w
        ∧ logging w' = logging w
            ++ [{| levelname := WARNING; msg := "[Metrics] No interactions recorded";
                   args := [] |};
                {| levelname := INFO; msg := "[Metrics] JSON saved: {}";
                   args := [VStr json_file] |}].
Proof.
  apply (save_json_no_interactions (fresh_world "20250101_000000")). reflexivity.
Defined.

(** ** The two exports at the end of a call *)

Lemma tuple4_inv {A B C D : Type} (a a' : A) (b b' : B) (c c' : C) (d d' : D) :
  (a, b, c, d) = (a', b', c', d') → a = a' ∧ b = b' ∧ c = c' ∧ d = d'.
Proof. intros H. by injection H. Qed.

Lemma end_call_exports_columns :
  let w' := fst (end_call_exports 1020 scenario1) in
  (column "user_response_waiting_time" <$> fs w' !! export_path (self scenario1) ".csv",
   column "user_response_waiting_time" <$> fs w' !! export_path (self scenario1) ".json",
   column "agent_idle_time_per_question" <$> fs w' !! export_path (self scenario1) ".csv",
   column "agent_idle_time_per_question" <$> fs w' !! export_path (self scenario1) ".json")
  = (Some [Some (VInt 0)], Some [Some (VFloat 0.5)],
     Some [Some (VInt 0)], Some [Some (VFloat 0)]).
Proof. vm_compute. reflexivity. Qed.

(** C3, what the code does: [end_call] writes the tabular file before the
    structured one, and only the structured export runs the metrics pass.
    For the one-turn session of the scenario (started at t=1000, the turn
    logged with the placeholder [0] in both derived fields) both files hold
    one turn, but the tabular file holds the placeholders while the
    structured file holds the recomputed waiting time 0.5. *)
Theorem end_call_exports_differ :
  let w' := fst (end_call_exports 1020 scenario1) in
  ∃ csv json,
    fs w' !! export_path (self scenario1) ".csv" = Some csv
    ∧ fs w' !! export_path (self scenario1) ".json" = Some json
    ∧ column "user_response_waiting_time" csv = [Some (VInt 0)]
    ∧ column "user_response_waiting_time" json = [Some (VFloat 0.5)]
    ∧ column "agent_idle_time_per_question" csv = [Some (VInt 0)]
    ∧ column "agent_idle_time_per_question" json = [Some (VFloat 0)].
Proof.
  cbv zeta. pose proof end_call_exports_columns as H. cbv zeta in H.
  apply tuple4_inv in H as (Hcw & Hjw & Hci & Hji).
  destruct (fs (fst (end_call_exports 1020 scenario1)) !! export_path (self scenario1) ".csv")
    as [csv|]; [|discriminate Hcw].
  destruct (fs (fst (end_call_exports 1020 scenario1)) !! export_path (self scenario1) ".json")
    as [json|]; [|discriminate Hjw].
  exists csv, json.
  injection Hcw as Hcw. injection Hjw as Hjw. injection Hci as Hci. injection Hji as Hji.
  by repeat split.
Qed.

Lemma structured_first_columns :
  let w' := fst ((save_json ;; save_csv) scenario1) in
  (column "user_response_waiting_time" <$> fs w' !! export_path (self scenario1) ".csv",
   column "user_response_waiting_time" <$> fs w' !! export_path (self scenario1) ".json",
   column "agent_idle_time_per_question" <$> fs w' !! export_path (self scenario1) ".csv",
   column "agent_idle_time_per_question" <$> fs w' !! export_path (self scenario1) ".json")
  = (Some [Some (VFloat 0.5)], Some [Some (VFloat 0.5)],
     Some [Some (VFloat 0)], Some [Some (VFloat 0)]).
Proof. vm_compute. reflexivity. Qed.

(** Written in the other order, the structured export first, the two files
    of the same session hold the same derived values. *)
Example exports_agree_when_structured_first :
  let w' := fst ((save_json ;; save_csv) scenario1) in
  ∃ csv json,
    fs w' !! export_path (self scenario1) ".csv" = Some csv
    ∧ fs w' !! export_path (self scenario1) ".json" = Some json
    ∧ column "user_response_waiting_time" csv = [Some (VFloat 0.5)]
    ∧ column "user_response_waiting_time" json = [Some (VFloat 0.5)]
    ∧ column "agent_idle_time_per_question" csv = [Some (VFloat 0)]
    ∧ column "agent_idle_time_per_question" json = [Some (VFloat 0)].
Proof.
  cbv zeta. pose proof structured_first_columns as H. cbv zeta in H.
  apply tuple4_inv in H as (Hcw & Hjw & Hci & Hji).
  destruct (fs (fst ((save_json ;; save_csv) scenario1)) !! export_path (self scenario1) ".csv")
    as [csv|]; [|discriminate Hcw].
  destruct (fs (fst ((save_json ;; save_csv) scenario1)) !! export_path (self scenario1) ".json")
    as [json|]; [|discriminate Hjw].
  exists csv, json.
  injection Hcw as Hcw. injection Hjw as Hjw. injection Hci as Hci. injection Hji as Hji.
  by repeat split.
Qed.

(** ** The tabular export *)





(** ** The metrics pass on records of the data model *)

Lemma float_field_lookup (k : string) (d : dict) :
  float_field k d = true → d !! k = Some (VFloat (float_of k d)).
Proof.
  unfold float_field, float_of. by destruct (d !! k) as [[]|].
Qed.

Lemma getitem_float (k : string) (d : dict) :
  float_field k d = true → getitem d k = Ok (VFloat (float_of k d)).
Proof. intros H. unfold getitem. by rewrite (float_field_lookup k d H). Qed.

Lemma idle_of_typed (d : dict) :
  interaction_record d = true → idle_of d = Ok (VFloat (idle_time d)).
Proof.
  unfold interaction_record. rewrite !andb_true_iff.
  intros [[[[[_ Hse] Hrs] _] _] _].
  unfold idle_of, idle_time.
  by rewrite (getitem_float _ _ Hrs), (getitem_float _ _ Hse).
Qed.

Lemma step_typed (start : option float) (i : nat) (prev : option dict) (since : float)
    (d : dict) :
  interaction_record d = true →
  counted_from start i prev since →
  step start i prev d = (derived since d, Ok tt).
Proof.
  intros Hd Hsince. unfold step. rewrite (idle_of_typed d Hd).
  unfold waiting_of. rewrite getitem_insert_ne by done.
  revert Hd. unfold interaction_record. rewrite !andb_true_iff.
  intros [[[[[Hss _] _] _] _] _].
  rewrite (getitem_float _ _ Hss). cbn [mbind result_bind].
  destruct i as [|j]; cbn [counted_from] in Hsince.
  - by rewrite Hsince.
  - destruct Hsince as (p & -> & Hp). unfold getitem. by rewrite Hp.
Qed.

Lemma sweep_typed (start : option float) (l : list dict) :
  ∀ i prev since,
    forallb interaction_record l = true →
    counted_from start i prev since →
    sweep start i prev l = (recomputed since l, Ok tt).
Proof.
  induction l as [|d rest IH]; intros i prev since Hl Hsince; [done|].
  cbn [forallb] in Hl. apply andb_prop in Hl as [Hd Hrest].
  cbn [sweep recomputed]. rewrite (step_typed _ _ _ _ _ Hd Hsince).
  rewrite (IH (S i) (Some (derived since d)) (float_of "agent_response_end_time" d)); [done..|].
  eexists. split; [done|].
  unfold derived. rewrite !lookup_insert_ne by done.
  apply float_field_lookup.
  revert Hd. unfold interaction_record. rewrite !andb_true_iff. tauto.
Qed.

Lemma recomputed_length (l : list dict) : ∀ since, length (recomputed since l) = length l.
Proof. induction l as [|d rest IH]; intros since; simpl; by rewrite ?IH. Qed.

Lemma recomputed_lookup (l : list dict) :
  ∀ since i d,
    l !! i = Some d →
    recomputed since l !! i
    = Some (derived match i with
                    | O => since
                    | S j => from_option (float_of "agent_response_end_time") zero (l !! j)
                    end d).
Proof.
  induction l as [|d0 rest IH]; intros since i d Hi; [done|].
  destruct i as [|i]; cbn [recomputed].
  - by injection Hi as ->.
  - cbn [lookup list_lookup] in Hi |- *. rewrite (IH _ _ _ Hi).
    by destruct i.
Qed.

(** C1: on a recorder with a start time and a non-empty sequence of
    records of the data model, [calculate_metrics] leaves as many records
    as before and, in the record at every index [i],
    [agent_idle_time_per_question] is
    [round(response_start_time - speech_end_time, 3)] and
    [user_response_waiting_time] is
    [round(speech_start_time - session_start_time, 3)] when [i = 0] and
    [round(speech_start_time - agent_response_end_time of record i-1, 3)]
    otherwise, the timestamps being those of the records before the call. *)
Theorem calculate_metrics_recomputes (w : world) (t0 : float) :
  session_start_time (self w) = Some t0 →
  interactions (self w) ≠ [] →
  forallb interaction_record (interactions (self w)) = true →
  let l := interactions (self w) in
  let l' := interactions (self (fst (calculate_metrics w))) in
  length l' = length l
  ∧ ∀ i d, l !! i = Some d →
      ∃ d', l' !! i = Some d'
        ∧ d' !! "agent_idle_time_per_question"
          = Some (VFloat (Py.round3 (float_of "response_start_time" d
                                     - float_of "speech_end_time" d)))
        ∧ (i = 0 →
           d' !! "user_response_waiting_time"
           = Some (VFloat (Py.round3 (float_of "speech_start_time" d - t0))))
        ∧ (∀ j p, i = S j → l !! j = Some p →
           d' !! "user_response_waiting_time"
           = Some (VFloat (Py.round3 (float_of "speech_start_time" d
                                      - float_of "agent_response_end_time" p)))).
Proof.
  intros Hstart Hne Htyped l l'. subst l l'.
  rewrite (calculate_metrics_nonempty w Hne). cbv zeta. cbn [fst].
  rewrite Hstart, (sweep_typed (Some t0) _ 0 None t0 Htyped eq_refl).
  cbn [fst with_interactions self set_interactions interactions].
  split; [apply recomputed_length|].
  intros i d Hi. eexists. split; [by apply recomputed_lookup|].
  unfold derived. split; [|split].
  - by rewrite lookup_insert_ne, lookup_insert_eq.
  - intros ->. by rewrite lookup_insert_eq.
  - intros j p -> Hp. by rewrite lookup_insert_eq, Hp.
Qed.

Lemma calculate_metrics_recomputes_witness :
  let l := interactions (self scenario) in
  let l' := interactions (self (fst (calculate_metrics scenario))) in
  length l' = length l
  ∧ ∀ i d, l !! i = Some d →
      ∃ d', l' !! i = Some d'
        ∧ d' !! "agent_idle_time_per_question"
          = Some (VFloat (Py.round3 (float_of "response_start_time" d
                                     - float_of "speech_end_time" d)))
        ∧ (i = 0 →
           d' !! "user_response_waiting_time"
           = Some (VFloat (Py.round3 (float_of "speech_start_time" d - 1000))))
        ∧ (∀ j p, i = S j → l !! j = Some p →
           d' !! "user_response_waiting_time"
           = Some (VFloat (Py.round3 (float_of "speech_start_time" d
                                      - float_of "agent_response_end_time" p)))).
Proof.
  apply (calculate_metrics_recomputes scenario 1000).
  - reflexivity.
  - discriminate.
  - vm_compute. reflexivity.
Defined.

(** ** The session summary *)

Lemma sum_from_floats (k : string) (l : list dict) :
  ∀ x, forallb (float_field k) l = true →
       sum_from (VFloat x) k l = Ok (VFloat (fold_left PrimFloat.add (float_of k <$> l) x)).
Proof.
  induction l as [|d rest IH]; intros x Hl; [done|].
  cbn [forallb] in Hl. apply andb_prop in Hl as [Hd Hrest].
  cbn [sum_from]. rewrite (getitem_float k d Hd). cbn [mbind result_bind Py.add].
  by rewrite IH.
Qed.

Lemma sum_of_floats (k : string) (l : list dict) :
  l ≠ [] → forallb (float_field k) l = true →
  sum_of k l = Ok (VFloat (fsum (float_of k <$> l))).
Proof.
  destruct l as [|d rest]; [done|]. intros _ Hl.
  cbn [forallb] in Hl. apply andb_prop in Hl as [Hd Hrest].
  unfold sum_of, fsum. cbn [sum_from]. rewrite (getitem_float k d Hd).
  cbn [mbind result_bind]. change (Py.add (VInt 0) (VFloat (float_of k d)))
    with (@Ok value (VFloat (zero + float_of k d))).
  cbn [mbind result_bind]. by rewrite sum_from_floats.
Qed.

Lemma maxsize_below_overflow : (Py.maxsize < Py.overflow_bound)%Z.
Proof. reflexivity. Qed.

(** Dividing a float by a count of items. *)
Lemma truediv_count (x : float) (n : Z) :
  (1 ≤ n ≤ Py.maxsize)%Z →
  Py.truediv (VFloat x) (VInt n) = Ok (VFloat (x / Py.to_float n)).
Proof.
  intros Hn. pose proof maxsize_below_overflow as Hmax.
  unfold Py.truediv, Py.float_of_int.
  assert (Hfin : (Py.overflow_bound <=? Z.abs n)%Z = false).
  { apply Z.leb_gt. rewrite Z.abs_eq; lia. }
  assert (Hnz : (n =? 0)%Z = false) by (apply Z.eqb_neq; lia).
  by rewrite Hfin, Hnz.
Qed.

Lemma summary_lookup (v1 v2 v3 v4 v5 v6 v7 v8 v9 v10 v11 : value) :
  let summary : dict := list_to_map [
    ("session_id", v1); ("total_questions", v2);
    ("total_user_speaking_time", v3); ("average_user_speaking_time", v4);
    ("total_agent_reply_time", v5); ("average_agent_reply_time", v6);
    ("total_agent_idle_time", v7); ("average_agent_idle_time", v8);
    ("total_voice_agent_response_time_during_start_end_call", v9);
    ("session_start_time", v10); ("session_end_time", v11)] in
  summary !! "total_questions" = Some v2
  ∧ summary !! "total_user_speaking_time" = Some v3
  ∧ summary !! "average_user_speaking_time" = Some v4
  ∧ summary !! "total_agent_reply_time" = Some v5
  ∧ summary !! "average_agent_reply_time" = Some v6
  ∧ summary !! "total_agent_idle_time" = Some v7
  ∧ summary !! "average_agent_idle_time" = Some v8
  ∧ summary !! "total_voice_agent_response_time_during_start_end_call" = Some v9.
Proof. repeat split; reflexivity. Qed.

Lemma forallb_float_field_raw (k : string) (l : list dict) :
  forallb interaction_record l = true →
  k = "user_speaking_time" ∨ k = "agent_reply_time" →
  ∀ since, forallb (float_field k) (recomputed since l) = true.
Proof.
  intros Hl Hk. induction l as [|d rest IH]; intros since; [done|].
  cbn [forallb] in Hl. apply andb_prop in Hl as [Hd Hrest].
  cbn [recomputed forallb]. rewrite (IH Hrest), andb_true_r.
  revert Hd. unfold interaction_record. rewrite !andb_true_iff.
  intros [[[[[_ _] _] _] Hust] Hart].
  unfold derived, float_field.
  destruct Hk as [->| ->].
  - rewrite !lookup_insert_ne by done. apply Hust.
  - rewrite !lookup_insert_ne by done. apply Hart.
Qed.

Lemma forallb_float_field_idle (l : list dict) :
  ∀ since, forallb (float_field "agent_idle_time_per_question") (recomputed since l) = true.
Proof.
  induction l as [|d rest IH]; intros since; [done|].
  cbn [recomputed forallb]. rewrite IH, andb_true_r.
  unfold derived, float_field. by rewrite lookup_insert_ne, lookup_insert_eq.
Qed.

(** The summary of a recorder whose summed fields are floats. *)
Lemma summary_metrics_floats (s : VoiceAgentMetrics) (t0 : float) :
  session_start_time s = Some t0 →
  interactions s ≠ [] →
  (Z.of_nat (length (interactions s)) ≤ Py.maxsize)%Z →
  forallb (float_field "user_speaking_time") (interactions s) = true →
  forallb (float_field "agent_reply_time") (interactions s) = true →
  forallb (float_field "agent_idle_time_per_question") (interactions s) = true →
  let N := Z.of_nat (length (interactions s)) in
  let total k := fsum (float_of k <$> interactions s) in
  summary_metrics s
  = Ok (list_to_map [
      ("session_id", VStr (session_id s));
      ("total_questions", VInt N);
      ("total_user_speaking_time", VFloat (Py.round3 (total "user_speaking_time")));
      ("average_user_speaking_time",
       VFloat (Py.round3 (total "user_speaking_time" / Py.to_float N)));
      ("total_agent_reply_time", VFloat (Py.round3 (total "agent_reply_time")));
      ("average_agent_reply_time",
       VFloat (Py.round3 (total "agent_reply_time" / Py.to_float N)));
      ("total_agent_idle_time", VFloat (Py.round3 (total "agent_idle_time_per_question")));
      ("average_agent_idle_time",
       VFloat (Py.round3 (total "agent_idle_time_per_question" / Py.to_float N)));
      ("total_voice_agent_response_time_during_start_end_call",
       match session_end_time s with
       | Some t1 => if is_zero t1 then VInt 0 else VFloat (Py.round3 (t1 - t0))
       | None => VInt 0
       end);
      ("session_start_time", VFloat t0);
      ("session_end_time", Py.of_attr (session_end_time s))
    ]).
Proof.
  intros Hstart Hne Hlen Hust Hart Hidle N total. subst N total.
  assert (Hcount : (1 ≤ Z.of_nat (length (interactions s)) ≤ Py.maxsize)%Z).
  { destruct (interactions s); [done|]. simpl in *. lia. }
  pose proof (truediv_count (fsum (float_of "user_speaking_time" <$> interactions s))
                _ Hcount) as H1.
  pose proof (truediv_count (fsum (float_of "agent_reply_time" <$> interactions s))
                _ Hcount) as H2.
  pose proof (truediv_count (fsum (float_of "agent_idle_time_per_question" <$> interactions s))
                _ Hcount) as H3.
  unfold summary_metrics.
  rewrite (sum_of_floats "user_speaking_time" _ Hne Hust).
  rewrite (sum_of_floats "agent_reply_time" _ Hne Hart).
  rewrite (sum_of_floats "agent_idle_time_per_question" _ Hne Hidle).
  cbn [mbind result_bind Py.round_3].
  rewrite H1, H2, H3. cbn [mbind result_bind Py.round_3].
  rewrite Hstart.
  destruct (session_end_time s) as [t1|]; cbn [Py.truthy]; [|done].
  by destruct (is_zero t1).
Qed.





(** * The exports, the report, the agent and the endpoints *)

(** ** Running the exports *)







(** ** A failed metrics pass and the structured export *)


(** ** A record the tabular export rejects *)






(** ** The download endpoints *)






(** ** The exports after a metrics pass *)













(** ** A record the metrics pass cannot process *)

(** The pass over records of the data model followed by other records. *)
Lemma sweep_after_typed (start : option float) (rest : list dict) (pre : list dict) :
  ∀ i prev since,
    forallb interaction_record pre = true →
    counted_from start i prev since →
    sweep start i prev (pre ++ rest)
    = (recomputed since pre
         ++ fst (sweep start (i + length pre)
                   (match pre with [] => prev | _ => last (recomputed since pre) end) rest),
       snd (sweep start (i + length pre)
              (match pre with [] => prev | _ => last (recomputed since pre) end) rest)).
Proof.
  induction pre as [|d pre IH]; intros i prev since Htyped Hsince.
  - cbn [app recomputed length]. rewrite Nat.add_0_r. by destruct (sweep start i prev rest).
  - cbn [forallb] in Htyped. apply andb_prop in Htyped as [Hd Hpre].
    cbn [app sweep recomputed length]. rewrite (step_typed _ _ _ _ _ Hd Hsince).
    assert (Hnext : counted_from start (S i) (Some (derived since d))
                      (float_of "agent_response_end_time" d)).
    { eexists. split; [done|]. unfold derived. rewrite !lookup_insert_ne by done.
      apply float_field_lookup.
      revert Hd. unfold interaction_record. rewrite !andb_true_iff. tauto. }
    rewrite (IH (S i) (Some (derived since d)) _ Hpre Hnext).
    replace (S i + length pre) with (i + S (length pre)) by lia.
    destruct pre as [|d1 pre]; [done|].
    cbn [recomputed last]. cbn [app].
    by destruct (recomputed (float_of "agent_response_end_time" d1) pre).
Qed.

(** X6: when the records before some record are records of the data model
    and the idle time of that record cannot be computed (a timestamp is
    missing or is not a number), [calculate_metrics] raises the exception
    of that computation, having recomputed both derived fields of every
    record before it and touched neither that record nor any record after
    it. *)
Theorem calculate_metrics_stops (w : world) (t0 : float) (pre : list dict) (d : dict)
    (post : list dict) (e : exn) :
  session_start_time (self w) = Some t0 →
  interactions (self w) = pre ++ d :: post →
  forallb interaction_record pre = true →
  idle_of d = Raise e →
  calculate_metrics w = (with_interactions (recomputed t0 pre ++ d :: post) w, Raise e).
Proof.
  intros Hstart Hl Htyped Hidle.
  assert (Hne : interactions (self w) ≠ []) by (rewrite Hl; by destruct pre).
  rewrite (calculate_metrics_nonempty w Hne). cbv zeta.
  rewrite Hstart, Hl, (sweep_after_typed (Some t0) (d :: post) pre 0 None t0 Htyped eq_refl).
  cbn [sweep fst snd]. unfold step. rewrite Hidle. done.
Qed.

Lemma calculate_metrics_stops_witness :
  let bad := delete "response_start_time" turn2 in
  let w := fst (log_interaction turn2 (fst (log_interaction bad scenario1))) in
  calculate_metrics w
  = (with_interactions
       (recomputed 1000 (interactions (self scenario1))
          ++ <["session_id" := VStr "session_20250101_000000"]> bad
          :: [<["session_id" := VStr "session_20250101_000000"]> turn2]) w,
     Raise (KeyError "response_start_time")).
Proof.
  apply (calculate_metrics_stops
           (fst (log_interaction turn2
                   (fst (log_interaction (delete "response_start_time" turn2) scenario1))))
           1000 (interactions (self scenario1))).
  - reflexivity.
  - reflexivity.
  - vm_compute. reflexivity.
  - vm_compute. reflexivity.
Defined.

(** ** The canned replies of [run_llm] *)

Lemma string_app_assoc (a b c : string) : ((a ++ b) ++ c = a ++ b ++ c)%string.
Proof.
  induction a as [|x a IH]; [done|].
  change ((String x a ++ b) ++ c)%string with (String x ((a ++ b) ++ c)).
  by rewrite IH.
Qed.

Lemma lower_app (a b : string) : lower (a ++ b)%string = (lower a ++ lower b)%string.
Proof.
  induction a as [|c a IH]; [done|].
  change (lower (String c a ++ b)) with (String (lower_char c) (lower (a ++ b))).
  by rewrite IH.
Qed.

Lemma prefix_spec (k h : string) :
  String.prefix k h = true ↔ ∃ s, h = (k ++ s)%string.
Proof.
  revert h. induction k as [|c k IH]; intros h.
  - split; [|by destruct h]. intros _. by exists h.
  - destruct h as [|c' h]; simpl.
    + split; [done|]. by intros [s [=]].
    + destruct (Ascii.ascii_dec c c') as [->|Hc].
      * rewrite IH. split; intros [s Hs]; exists s; [by rewrite Hs|]. by injection Hs.
      * split; [done|]. intros [s [= ? ?]]. done.
Qed.

(** [needle in hay] holds exactly when [hay] is [needle] between two
    strings. *)
Lemma contains_spec (k h : string) :
  contains k h = true ↔ ∃ p s, h = (p ++ k ++ s)%string.
Proof.
  induction h as [|c h IH]; cbn [contains].
  - rewrite orb_false_r, prefix_spec. split.
    + intros [s Hs]. by exists "", s.
    + intros ([|c p] & s & Hs); [by exists s|discriminate].
  - rewrite orb_true_iff, prefix_spec, IH. split.
    + intros [[s Hs]|(p & s & Hs)].
      * by exists "", s.
      * exists (String c p), s. simpl. by rewrite Hs.
    + intros ([|c' p] & s & Hs).
      * left. by exists s.
      * right. injection Hs as -> Hs. by exists p, s.
Qed.

(** X7: a text in which "order" occurs, in any mix of upper and lower
    case and anywhere, also inside a word, gets the order reply, whatever
    else the text says: the test for "order" comes first. *)
Theorem run_llm_order_first (pre word post : string) :
  lower word = "order" →
  run_llm (pre ++ word ++ post)
  = "I can help you with your order. What would you like to order?".
Proof.
  intros Hword. unfold run_llm.
  assert (H : contains "order" (lower (pre ++ word ++ post)) = true).
  { rewrite !lower_app, Hword. apply contains_spec. by exists (lower pre), (lower post). }
  by rewrite H.
Qed.

Lemma run_llm_order_first_witness :
  run_llm ("Please end my call, I want to re" ++ "ORDER" ++ "; is that available?")
  = "I can help you with your order. What would you like to order?".
Proof. apply (run_llm_order_first _ "ORDER"). reflexivity. Defined.

(** X8: the third test of the farewell branch of [run_llm] never decides:
    a text in which "goodbye" occurs is a text in which "bye" occurs, so
    the branch is taken exactly when "end" or "bye" occurs. *)
Theorem run_llm_goodbye_redundant (input_text : string) :
  contains "end" (lower input_text) || contains "bye" (lower input_text)
  || contains "goodbye" (lower input_text)
  = contains "end" (lower input_text) || contains "bye" (lower input_text).
Proof.
  destruct (contains "goodbye" (lower input_text)) eqn:Hgoodbye;
    [|by rewrite orb_false_r].
  apply contains_spec in Hgoodbye as (p & s & Hs).
  assert (Hbye : contains "bye" (lower input_text) = true).
  { apply contains_spec. exists (p ++ "good")%string, s. rewrite Hs.
    rewrite string_app_assoc. reflexivity. }
  rewrite Hbye. by rewrite !orb_true_r.
Qed.

(** ** Running the process *)

Lemma call_run {A : Type} (c : M A) (p : process) :
  call c p = (with_env (fst (c (env p))) p, snd (c (env p))).
Proof. unfold call. by destruct (c (env p)). Qed.

Lemma bindP_run {A B : Type} (c : P A) (k : A → P B) (p p' : process) (a : A) :
  c p = (p', Ok a) → bindP c k p = k a p'.
Proof. intros H. unfold bindP. by rewrite H. Qed.


Lemma bindP_print {B : Type} (l : line) (k : unit → P B) (p : process) :
  bindP (print l) k p = k tt (add_stdout [l] p).
Proof. reflexivity. Qed.

Lemma bindP_liftP {A B : Type} (a : A) (k : A → P B) (p : process) :
  bindP (liftP (Ok a)) k p = k a p.
Proof. reflexivity. Qed.

Lemma add_stdout_add (l1 l2 : list line) (p : process) :
  add_stdout l2 (add_stdout l1 p) = add_stdout (l1 ++ l2) p.
Proof. unfold add_stdout. cbn. by rewrite app_assoc. Qed.

Lemma add_stdout_nil (p : process) : add_stdout [] p = p.
Proof. destruct p. unfold add_stdout. cbn. by rewrite app_nil_r. Qed.

Lemma table_row_printable (i : Z) (d : dict) :
  printable d = true → table_row i d = Ok (report_row i d).
Proof.
  unfold printable. rewrite !andb_true_iff. intros [[[Hw Hs] Hi] Hr].
  unfold table_row, report_row.
  rewrite (getitem_float _ _ Hw), (getitem_float _ _ Hs), (getitem_float _ _ Hi),
    (getitem_float _ _ Hr).
  by rewrite (float_field_lookup _ _ Hw), (float_field_lookup _ _ Hs),
    (float_field_lookup _ _ Hi), (float_field_lookup _ _ Hr).
Qed.

Lemma print_rows_printable (l : list dict) :
  ∀ i p, forallb printable l = true →
         print_rows i l p = (add_stdout (report_rows i l) p, Ok tt).
Proof.
  induction l as [|d rest IH]; intros i p Hl.
  - cbn [print_rows report_rows]. unfold retP. by rewrite add_stdout_nil.
  - cbn [forallb] in Hl. apply andb_prop in Hl as [Hd Hrest].
    cbn [print_rows report_rows]. rewrite (table_row_printable i d Hd).
    rewrite bindP_liftP, bindP_print, (IH _ _ Hrest). by rewrite add_stdout_add.
Qed.

Lemma summary_row_ok (label : string) (summary : dict) (key : string) (spec : format_spec)
    (v : value) :
  summary !! key = Some v →
  format v spec = Ok (Field v spec) →
  summary_row label (Some summary) key spec = Ok (report_value label summary key spec).
Proof.
  intros Hv Hf. unfold summary_row, report_value, getitem. rewrite Hv. cbn [mbind result_bind].
  by rewrite Hf.
Qed.

Lemma recomputed_printable (l : list dict) :
  ∀ since, forallb interaction_record l = true →
           forallb printable (recomputed since l) = true.
Proof.
  induction l as [|d rest IH]; intros since Hl; [done|].
  cbn [forallb] in Hl. apply andb_prop in Hl as [Hd Hrest].
  cbn [recomputed forallb]. rewrite (IH _ Hrest), andb_true_r.
  revert Hd. unfold interaction_record. rewrite !andb_true_iff.
  intros [[[[[_ _] _] _] Hust] Hart].
  unfold printable, derived, float_field in *.
  rewrite lookup_insert_eq.
  rewrite (lookup_insert_ne _ "user_response_waiting_time" "user_speaking_time") by done.
  rewrite (lookup_insert_ne _ "agent_idle_time_per_question" "user_speaking_time") by done.
  rewrite (lookup_insert_ne _ "user_response_waiting_time" "agent_idle_time_per_question")
    by done.
  rewrite lookup_insert_eq.
  rewrite (lookup_insert_ne _ "user_response_waiting_time" "agent_reply_time") by done.
  rewrite (lookup_insert_ne _ "agent_idle_time_per_question" "agent_reply_time") by done.
  by rewrite Hust, Hart.
Qed.

(** The summary values of a session of records of the data model can all
    be formatted. *)
Lemma summary_floats_format (v1 v10 v11 : value) (n : Z) (a b c d e f : float)
    (t1 : option float) (t0 : float) :
  let call_time := match t1 with
                   | Some t => if is_zero t then VInt 0 else VFloat (Py.round3 (t - t0))
                   | None => VInt 0
                   end in
  let summary : dict := list_to_map [
    ("session_id", v1); ("total_questions", VInt n);
    ("total_user_speaking_time", VFloat a); ("average_user_speaking_time", VFloat b);
    ("total_agent_reply_time", VFloat c); ("average_agent_reply_time", VFloat d);
    ("total_agent_idle_time", VFloat e); ("average_agent_idle_time", VFloat f);
    ("total_voice_agent_response_time_during_start_end_call", call_time);
    ("session_start_time", v10); ("session_end_time", v11)] in
  ∀ label,
    summary_row label (Some summary) "total_questions" (Plain 15)
    = Ok (report_value label summary "total_questions" (Plain 15))
    ∧ Forall (λ key, summary_row label (Some summary) key (Fixed 15 3)
                     = Ok (report_value label summary key (Fixed 15 3)))
        ["total_user_speaking_time"; "average_user_speaking_time";
         "total_agent_reply_time"; "average_agent_reply_time";
         "total_agent_idle_time"; "average_agent_idle_time";
         "total_voice_agent_response_time_during_start_end_call"].
Proof.
  intros call_time summary label.
  pose proof (summary_lookup v1 (VInt n) (VFloat a) (VFloat b) (VFloat c) (VFloat d)
                (VFloat e) (VFloat f) call_time v10 v11) as Hlook.
  cbv zeta in Hlook. fold summary in Hlook.
  destruct Hlook as (H2 & H3 & H4 & H5 & H6 & H7 & H8 & H9).
  assert (Hcall : format call_time (Fixed 15 3) = Ok (Field call_time (Fixed 15 3))).
  { subst call_time. destruct t1 as [t|]; [destruct (is_zero t)|]; reflexivity. }
  split; [exact (summary_row_ok _ _ _ (Plain 15) _ H2 eq_refl)|].
  repeat apply Forall_cons_2; [..|apply Forall_nil_2].
  - exact (summary_row_ok _ _ _ (Fixed 15 3) _ H3 eq_refl).
  - exact (summary_row_ok _ _ _ (Fixed 15 3) _ H4 eq_refl).
  - exact (summary_row_ok _ _ _ (Fixed 15 3) _ H5 eq_refl).
  - exact (summary_row_ok _ _ _ (Fixed 15 3) _ H6 eq_refl).
  - exact (summary_row_ok _ _ _ (Fixed 15 3) _ H7 eq_refl).
  - exact (summary_row_ok _ _ _ (Fixed 15 3) _ H8 eq_refl).
  - exact (summary_row_ok _ _ _ (Fixed 15 3) _ H9 Hcall).
Qed.

Lemma call_get_self (p : process) : call get_self p = (p, Ok (self (env p))).
Proof. by destruct p. Qed.

Lemma print_rows_stops (pre : list dict) (d : dict) (post : list dict) (e : exn) :
  ∀ i p, forallb printable pre = true →
         table_row (i + Z.of_nat (length pre)) d = Raise e →
         print_rows i (pre ++ d :: post) p = (add_stdout (report_rows i pre) p, Raise e).
Proof.
  induction pre as [|d0 pre IH]; intros i p Hpre Hd.
  - cbn [length Z.of_nat] in Hd. rewrite Z.add_0_r in Hd.
    cbn [app print_rows report_rows]. rewrite Hd. by rewrite add_stdout_nil.
  - cbn [forallb] in Hpre. apply andb_prop in Hpre as [Hd0 Hpre].
    cbn [app print_rows report_rows]. rewrite (table_row_printable i d0 Hd0).
    rewrite bindP_liftP, bindP_print, (IH (i + 1)%Z _ Hpre), ?add_stdout_add; [done|].
    rewrite <- Hd. f_equal. cbn [length]. lia.
Qed.

(** The report up to the rows of the table. *)
Lemma report_rows_run (p : process) (w' : world) (summary : option dict) :
  interactions (self (env p)) ≠ [] →
  calculate_metrics (env p) = (w', Ok summary) →
  print_human_readable_table p
  = bindP (print_rows 1 (interactions (self w')))
      (λ _,
         print [Text (nl ++ "SUMMARY:")] ;;;
         print [Text (ljust 40 "Metric" ++ " " ++ ljust 15 "Value")] ;;;
         print [Text (repeat_str "-" 40 ++ " " ++ repeat_str "-" 15)] ;;;
         r <~ liftP (summary_row "Total Questions" summary "total_questions" (Plain 15)) ;;
         print r ;;;
         r <~ liftP (summary_row "Total User Speaking Time (s)" summary
                       "total_user_speaking_time" (Fixed 15 3)) ;;
         print r ;;;
         r <~ liftP (summary_row "Average User Speaking Time (s)" summary
                       "average_user_speaking_time" (Fixed 15 3)) ;;
         print r ;;;
         r <~ liftP (summary_row "Total Agent Reply Time (s)" summary
                       "total_agent_reply_time" (Fixed 15 3)) ;;
         print r ;;;
         r <~ liftP (summary_row "Average Agent Reply Time (s)" summary
                       "average_agent_reply_time" (Fixed 15 3)) ;;
         print r ;;;
         r <~ liftP (summary_row "Total Agent Idle Time (s)" summary
                       "total_agent_idle_time" (Fixed 15 3)) ;;
         print r ;;;
         r <~ liftP (summary_row "Average Agent Idle Time (s)" summary
                       "average_agent_idle_time" (Fixed 15 3)) ;;
         print r ;;;
         r <~ liftP (summary_row "Total Session Time (s)" summary
                       "total_voice_agent_response_time_during_start_end_call"
                       (Fixed 15 3)) ;;
         print r ;;;
         print [Text (repeat_str "=" 80)])
      (add_stdout (report_header (session_id (self w'))) (with_env w' p)).
Proof.
  intros Hne Hrun. unfold print_human_readable_table.
  rewrite (bindP_run _ _ _ _ _ (call_get_self p)).
  destruct (interactions (self (env p))) as [|d0 l0]; [done|].
  assert (Hcall : call calculate_metrics p = (with_env w' p, Ok summary)).
  { by rewrite call_run, Hrun. }
  rewrite (bindP_run _ _ _ _ _ Hcall).
  rewrite (bindP_run _ _ _ _ _ (call_get_self (with_env w' p))).
  rewrite !bindP_print, !add_stdout_add. reflexivity.
Qed.

Lemma print_run (l : line) (p : process) : print l p = (add_stdout [l] p, Ok tt).
Proof. reflexivity. Qed.

Lemma report_footer_run (summary : dict) (p : process) :
  (∀ label,
     summary_row label (Some summary) "total_questions" (Plain 15)
     = Ok (report_value label summary "total_questions" (Plain 15))
     ∧ Forall (λ key, summary_row label (Some summary) key (Fixed 15 3)
                      = Ok (report_value label summary key (Fixed 15 3)))
         ["total_user_speaking_time"; "average_user_speaking_time";
          "total_agent_reply_time"; "average_agent_reply_time";
          "total_agent_idle_time"; "average_agent_idle_time";
          "total_voice_agent_response_time_during_start_end_call"]) →
  (print [Text (nl ++ "SUMMARY:")] ;;;
   print [Text (ljust 40 "Metric" ++ " " ++ ljust 15 "Value")] ;;;
   print [Text (repeat_str "-" 40 ++ " " ++ repeat_str "-" 15)] ;;;
   r <~ liftP (summary_row "Total Questions" (Some summary) "total_questions" (Plain 15)) ;;
   print r ;;;
   r <~ liftP (summary_row "Total User Speaking Time (s)" (Some summary)
                 "total_user_speaking_time" (Fixed 15 3)) ;;
   print r ;;;
   r <~ liftP (summary_row "Average User Speaking Time (s)" (Some summary)
                 "average_user_speaking_time" (Fixed 15 3)) ;;
   print r ;;;
   r <~ liftP (summary_row "Total Agent Reply Time (s)" (Some summary)
                 "total_agent_reply_time" (Fixed 15 3)) ;;
   print r ;;;
   r <~ liftP (summary_row "Average Agent Reply Time (s)" (Some summary)
                 "average_agent_reply_time" (Fixed 15 3)) ;;
   print r ;;;
   r <~ liftP (summary_row "Total Agent Idle Time (s)" (Some summary)
                 "total_agent_idle_time" (Fixed 15 3)) ;;
   print r ;;;
   r <~ liftP (summary_row "Average Agent Idle Time (s)" (Some summary)
                 "average_agent_idle_time" (Fixed 15 3)) ;;
   print r ;;;
   r <~ liftP (summary_row "Total Session Time (s)" (Some summary)
                 "total_voice_agent_response_time_during_start_end_call" (Fixed 15 3)) ;;
   print r ;;;
   print [Text (repeat_str "=" 80)]) p
  = (add_stdout (report_footer summary) p, Ok tt).
Proof.
  intros Hf.
  assert (H1 := proj1 (Hf "Total Questions")).
  assert (H2 := proj2 (Hf "Total User Speaking Time (s)")).
  assert (H3 := proj2 (Hf "Average User Speaking Time (s)")).
  assert (H4 := proj2 (Hf "Total Agent Reply Time (s)")).
  assert (H5 := proj2 (Hf "Average Agent Reply Time (s)")).
  assert (H6 := proj2 (Hf "Total Agent Idle Time (s)")).
  assert (H7 := proj2 (Hf "Average Agent Idle Time (s)")).
  assert (H8 := proj2 (Hf "Total Session Time (s)")).
  clear Hf.
  apply Forall_cons_1 in H2 as [H2 _].
  apply Forall_cons_1 in H3 as [_ [H3 _]%Forall_cons_1].
  apply Forall_cons_1 in H4 as [_ [_ [H4 _]%Forall_cons_1]%Forall_cons_1].
  apply Forall_cons_1 in H5 as [_ [_ [_ [H5 _]%Forall_cons_1]%Forall_cons_1]%Forall_cons_1].
  apply Forall_cons_1 in H6
    as [_ [_ [_ [_ [H6 _]%Forall_cons_1]%Forall_cons_1]%Forall_cons_1]%Forall_cons_1].
  apply Forall_cons_1 in H7
    as [_ [_ [_ [_ [_ [H7 _]%Forall_cons_1]%Forall_cons_1]%Forall_cons_1]%Forall_cons_1]
          %Forall_cons_1].
  apply Forall_cons_1 in H8
    as [_ [_ [_ [_ [_ [_ [H8 _]%Forall_cons_1]%Forall_cons_1]%Forall_cons_1]%Forall_cons_1]
          %Forall_cons_1]%Forall_cons_1].
  rewrite !bindP_print.
  rewrite H1, bindP_liftP, bindP_print.
  rewrite H2, bindP_liftP, bindP_print.
  rewrite H3, bindP_liftP, bindP_print.
  rewrite H4, bindP_liftP, bindP_print.
  rewrite H5, bindP_liftP, bindP_print.
  rewrite H6, bindP_liftP, bindP_print.
  rewrite H7, bindP_liftP, bindP_print.
  rewrite H8, bindP_liftP, bindP_print.
  rewrite print_run, !add_stdout_add. reflexivity.
Qed.

(** The summary of a started session of records of the data model. *)
Lemma calculate_metrics_typed (w : world) (t0 : float) :
  session_start_time (self w) = Some t0 →
  interactions (self w) ≠ [] →
  forallb interaction_record (interactions (self w)) = true →
  (Z.of_nat (length (interactions (self w))) ≤ Py.maxsize)%Z →
  calculate_metrics w
  = (with_interactions (recomputed t0 (interactions (self w))) w,
     summary_metrics (set_interactions (recomputed t0 (interactions (self w))) (self w))
       ≫= λ summary, Ok (Some summary))
  ∧ ∃ v1 a b c d e f v10 v11,
      summary_metrics (set_interactions (recomputed t0 (interactions (self w))) (self w))
      = Ok (list_to_map [
          ("session_id", v1);
          ("total_questions", VInt (Z.of_nat (length (interactions (self w)))));
          ("total_user_speaking_time", VFloat a); ("average_user_speaking_time", VFloat b);
          ("total_agent_reply_time", VFloat c); ("average_agent_reply_time", VFloat d);
          ("total_agent_idle_time", VFloat e); ("average_agent_idle_time", VFloat f);
          ("total_voice_agent_response_time_during_start_end_call",
           match session_end_time (self w) with
           | Some t => if is_zero t then VInt 0 else VFloat (Py.round3 (t - t0))
           | None => VInt 0
           end);
          ("session_start_time", v10); ("session_end_time", v11)]).
Proof.
  intros Hstart Hne Htyped Hlen. split.
  - rewrite (calculate_metrics_nonempty w Hne). cbv zeta.
    rewrite Hstart, (sweep_typed (Some t0) _ 0 None t0 Htyped eq_refl). cbn [fst snd].
    change (self (with_interactions ?l w)) with (set_interactions l (self w)).
    by destruct (summary_metrics _).
  - set (l := interactions (self w)) in *.
    set (l' := recomputed t0 l).
    assert (Hlen' : length l' = length l) by apply recomputed_length.
    assert (Hne' : l' ≠ []).
    { intros Hnil. apply (f_equal length) in Hnil. rewrite Hlen' in Hnil. by destruct l. }
    pose proof (summary_metrics_floats (set_interactions l' (self w)) t0) as Hsum.
    cbn [set_interactions interactions session_end_time session_start_time session_id]
      in Hsum.
    specialize (Hsum Hstart Hne').
    rewrite Hlen' in Hsum. specialize (Hsum Hlen).
    specialize (Hsum (forallb_float_field_raw _ _ Htyped (or_introl eq_refl) t0)).
    specialize (Hsum (forallb_float_field_raw _ _ Htyped (or_intror eq_refl) t0)).
    specialize (Hsum (forallb_float_field_idle l t0)).
    cbv zeta in Hsum. rewrite Hsum. by repeat eexists.
Qed.

(** The whole report, when the pass returns a summary whose values can be
    formatted and leaves records whose four columns are floats. *)
Lemma report_run (p : process) (w' : world) (summary : dict) :
  interactions (self (env p)) ≠ [] →
  calculate_metrics (env p) = (w', Ok (Some summary)) →
  forallb printable (interactions (self w')) = true →
  (∀ label,
     summary_row label (Some summary) "total_questions" (Plain 15)
     = Ok (report_value label summary "total_questions" (Plain 15))
     ∧ Forall (λ key, summary_row label (Some summary) key (Fixed 15 3)
                      = Ok (report_value label summary key (Fixed 15 3)))
         ["total_user_speaking_time"; "average_user_speaking_time";
          "total_agent_reply_time"; "average_agent_reply_time";
          "total_agent_idle_time"; "average_agent_idle_time";
          "total_voice_agent_response_time_during_start_end_call"]) →
  print_human_readable_table p
  = (add_stdout (report_header (session_id (self w'))
                 ++ report_rows 1 (interactions (self w'))
                 ++ report_footer summary)
       (with_env w' p), Ok tt).
Proof.
  intros Hne Hrun Hrows Hf.
  rewrite (report_rows_run p _ _ Hne Hrun).
  rewrite (bindP_run _ _ _ _ _ (print_rows_printable _ 1 _ Hrows)).
  by rewrite (report_footer_run summary _ Hf), !add_stdout_add.
Qed.

(** X9: the report of a started session of records of the data model.
    [print_human_readable_table] runs the metrics pass, never raises, and
    prints the six lines of the heading, one row per record with the
    recomputed waiting and idle times, and the twelve lines of the summary
    table with the values of the summary [calculate_metrics] returns. *)
Theorem report_of_typed_session (p : process) (t0 : float) :
  session_start_time (self (env p)) = Some t0 →
  interactions (self (env p)) ≠ [] →
  forallb interaction_record (interactions (self (env p))) = true →
  (Z.of_nat (length (interactions (self (env p)))) ≤ Py.maxsize)%Z →
  ∃ summary,
    snd (calculate_metrics (env p)) = Ok (Some summary)
    ∧ print_human_readable_table p
      = (add_stdout (report_header (session_id (self (env p)))
                     ++ report_rows 1 (recomputed t0 (interactions (self (env p))))
                     ++ report_footer summary)
           (with_env (fst (calculate_metrics (env p))) p), Ok tt).
Proof.
  intros Hstart Hne Htyped Hlen.
  destruct (calculate_metrics_typed (env p) t0 Hstart Hne Htyped Hlen)
    as [Hrun (v1 & a & b & c & d & e & f & v10 & v11 & Hsum)].
  rewrite Hsum in Hrun. cbn [mbind result_bind] in Hrun.
  pose proof (summary_floats_format v1 v10 v11
                (Z.of_nat (length (interactions (self (env p))))) a b c d e f
                (session_end_time (self (env p))) t0) as Hfmt.
  cbv zeta in Hfmt. revert Hrun Hfmt. generalize (list_to_map (M := dict) [
          ("session_id", v1);
          ("total_questions", VInt (Z.of_nat (length (interactions (self (env p))))));
          ("total_user_speaking_time", VFloat a); ("average_user_speaking_time", VFloat b);
          ("total_agent_reply_time", VFloat c); ("average_agent_reply_time", VFloat d);
          ("total_agent_idle_time", VFloat e); ("average_agent_idle_time", VFloat f);
          ("total_voice_agent_response_time_during_start_end_call",
           match session_end_time (self (env p)) with
           | Some t => if is_zero t then VInt 0 else VFloat (Py.round3 (t - t0))
           | None => VInt 0
           end);
          ("session_start_time", v10); ("session_end_time", v11)]).
  intros summary Hrun Hf. exists summary. rewrite Hrun. split; [done|].
  apply (report_run p _ summary Hne Hrun); [|done].
  by apply recomputed_printable.
Qed.

Lemma report_of_typed_session_witness :
  ∃ summary,
    snd (calculate_metrics scenario) = Ok (Some summary)
    ∧ print_human_readable_table (with_env scenario (fresh_process "20250101_000000"))
      = (add_stdout (report_header "session_20250101_000000"
                     ++ report_rows 1 (recomputed 1000 (interactions (self scenario)))
                     ++ report_footer summary)
           (with_env (fst (calculate_metrics scenario)) (fresh_process "20250101_000000")),
         Ok tt).
Proof.
  apply (report_of_typed_session (with_env scenario (fresh_process "20250101_000000")) 1000).
  - reflexivity.
  - discriminate.
  - vm_compute. reflexivity.
  - vm_compute. discriminate.
Defined.

(** ** The end of a call *)






















(** ** The records the agent logs *)















(** ** The start of a job *)





(** ** The metrics endpoint and the structured export *)






(** ** The end of a call when the metrics pass raises *)





